(** * casvisor: the machine controller (controllers/machine.go)

    A shallow embedding of the four read/write handlers of the machine API and
    of the default classifier [isDefaultMachine].  The handlers talk to the
    [object] package (store, cloud synchronisation, masking); every such call
    is an event of a small free monad, so that a run of a handler yields the
    response it wrote together with the trace of the collaborator calls it
    made, in order. *)

From Stdlib Require Import String Ascii List ZArith Bool Lia.
Import ListNotations.
Open Scope string_scope.
Open Scope list_scope.

(** ** Data model *)

(** Go's [error]: [None] is [nil], [Some msg] an error whose [Error()] is
    [msg]. *)
Definition error : Type := option string.

(** The fields of [object.Machine] that the controller reads (the struct
    itself is declared in the [object] package), and the owner half of the
    composite id. *)
Record Machine : Type := mkMachine {
  Owner : string;
  Name : string;
  DisplayName : string;
  Provider : string;
  State : string;
  Tag : string;
  ExpireTime : string;
  PublicIp : string;
  PrivateIp : string
}.

(** A [*object.Machine]: [None] is the nil pointer. *)
Definition MachinePtr : Type := option Machine.

(** ** strings.HasPrefix *)

(** [strings.HasPrefix s prefix]: [s] begins with [prefix]. *)
Fixpoint HasPrefix (s prefix : string) {struct prefix} : bool :=
  match prefix with
  | EmptyString => true
  | String p prefix' =>
      match s with
      | EmptyString => false
      | String a s' => if Ascii.eqb a p then HasPrefix s' prefix' else false
      end
  end.

(** ** The default classifier, machine.go lines 134-148 *)

Definition isDefaultMachine (machine : Machine) : bool :=
  if (PublicIp machine =? "") && (PrivateIp machine =? "") then
    if HasPrefix (Name machine) "machine_" &&
       HasPrefix (DisplayName machine) "New Machine - " then
      (Provider machine =? "provider_1") &&
      (State machine =? "Active") &&
      (Tag machine =? "") &&
      (ExpireTime machine =? "")
    else false
  else false.

(** The eight conditions of the classification rule, as propositions on the
    record. *)
Record DefaultPattern (m : Machine) : Prop := mkDefaultPattern {
  dp_public : PublicIp m = "";
  dp_private : PrivateIp m = "";
  dp_name : exists rest, Name m = ("machine_" ++ rest)%string;
  dp_display : exists rest, DisplayName m = ("New Machine - " ++ rest)%string;
  dp_provider : Provider m = "provider_1";
  dp_state : State m = "Active";
  dp_tag : Tag m = "";
  dp_expire : ExpireTime m = ""
}.

(** ** Requests and responses *)

(** [url.Values] as the query string lists them; [Get] is the first value
    bound to the key, or the empty string. *)
Definition Values : Type := list (string * string).

Fixpoint Get (key : string) (v : Values) : string :=
  match v with
  | [] => ""
  | (k, x) :: rest => if k =? key then x else Get key rest
  end.

Record Context : Type := mkContext {
  Form : Values;
  RequestBody : string
}.

Record ApiController : Type := mkApiController { Ctx : Context }.

(** [c.Input()] *)
Definition Input (c : ApiController) : Values := Form (Ctx c).

(** What a handler hands to [ResponseOk] as [interface{}] data. *)
Inductive Value : Type :=
| VMachines (machines : list MachinePtr)
| VMachine (machine : MachinePtr)
| VInt (n : Z).

(** [pagination.SetPaginator(ctx, per, nums)] builds the paginator; what its
    methods answer is left to the pagination library (see [Offset] and [Nums]
    below). *)
Inductive Paginator : Type :=
| SetPaginator (ctx : Context) (per : Z) (nums : Z).

(** [wrapActionResponse(affected, err)], the envelope of a mutation, kept
    uninterpreted. *)
Inductive ActionResponse : Type :=
| wrapActionResponse (affected : bool) (e : list error).

(** The response a handler writes: each constructor is one of the
    response-writing calls of the controller. *)
Inductive Response : Type :=
| ResponseOk (data : list Value)
| ResponseError (msg : string)
| ServeJSON (json : ActionResponse).

(** ** util.ParseInt *)

Definition digit (a : ascii) : option Z :=
  let n := Z.of_nat (nat_of_ascii a) in
  if (48 <=? n)%Z && (n <=? 57)%Z then Some (n - 48)%Z else None.

Fixpoint digits (s : string) (acc : Z) : option Z :=
  match s with
  | EmptyString => Some acc
  | String a s' =>
      match digit a with
      | Some d => digits s' (10 * acc + d)%Z
      | None => None
      end
  end.

(** A decimal integer literal: an optional sign and at least one digit. *)
Definition numeric (s : string) : bool :=
  match s with
  | EmptyString => false
  | String a s' =>
      if (Ascii.eqb a "-" || Ascii.eqb a "+")%bool
      then match s' with
           | EmptyString => false
           | _ => match digits s' 0 with Some _ => true | None => false end
           end
      else match digits s 0 with Some _ => true | None => false end
  end.

(** Modelled from the spec: [util.ParseInt] is not in the sources.  "pageSize
    and page are parsed as integers; a non-numeric value must fail with a
    parse error rather than silently defaulting."  [None] is the failure; an
    integer outside Go's 64-bit [int] fails as well. *)
Definition ParseInt (s : string) : option Z :=
  let in_range (n : Z) : option Z :=
    if (- 2 ^ 63 <=? n)%Z && (n <? 2 ^ 63)%Z then Some n else None in
  match s with
  | EmptyString => None
  | String a s' =>
      if Ascii.eqb a "-" then
        match s' with
        | EmptyString => None
        | _ => match digits s' 0 with Some n => in_range (- n)%Z | None => None end
        end
      else if Ascii.eqb a "+" then
        match s' with
        | EmptyString => None
        | _ => match digits s' 0 with Some n => in_range n | None => None end
        end
      else match digits s 0 with Some n => in_range n | None => None end
  end.

(** ** Collaborator calls and handler programs *)

(** The calls a handler makes into the [object] package; the index is the
    type of what the call returns. *)
Inductive Call : Type -> Type :=
| object_GetMachines (owner : string) : Call (list MachinePtr * error)
| Machine_IsDefault (machine : MachinePtr) : Call bool
| object_SyncMachinesCloud (owner : string) : Call (bool * error)
| object_GetMaskedMachines (machines : list MachinePtr) (errs : list error) :
    Call (list MachinePtr * error)
| object_GetMachineCount (owner field value : string) : Call (Z * error)
| object_GetPaginationMachines (owner : string) (offset limit : Z)
    (field value sortField sortOrder : string) : Call (list MachinePtr * error)
| object_GetMachine (id : string) : Call (MachinePtr * error)
| object_GetMaskedMachine (machine : MachinePtr) (errs : list error) :
    Call (MachinePtr * error)
| object_UpdateMachine (id : string) (machine : MachinePtr) : Call (bool * error)
| object_AddMachine (machine : MachinePtr) : Call (bool * error)
| object_DeleteMachine (machine : MachinePtr) : Call (bool * error).

(** What a Go panic carries. *)
Inductive PanicValue : Type :=
| ParseIntError (s : string).

(** A handler: it returns, panics, or makes a call and goes on with the
    answer. *)
Inductive Prog (A : Type) : Type :=
| Ret (a : A)
| Panic (v : PanicValue)
| Vis (X : Type) (c : Call X) (k : X -> Prog A).

Arguments Ret {A} a.
Arguments Panic {A} v.
Arguments Vis {A X} c k.

Fixpoint bind {A B : Type} (p : Prog A) (f : A -> Prog B) : Prog B :=
  match p with
  | Ret a => f a
  | Panic v => Panic v
  | Vis c k => Vis c (fun x => bind (k x) f)
  end.

Definition call {X : Type} (c : Call X) : Prog X := Vis c Ret.

Declare Scope prog_scope.
Delimit Scope prog_scope with prog.
Notation "x <- p ;; q" := (bind p (fun x => q))
  (at level 61, p at next level, right associativity) : prog_scope.
Notation "' pat <- p ;; q" := (bind p (fun x => match x with pat => q end))
  (at level 61, pat pattern, p at next level, right associativity) : prog_scope.
Open Scope prog_scope.

(** One collaborator call as it happened: the call and its answer. *)
Inductive Event : Type :=
| Ev (X : Type) (c : Call X) (x : X).

Arguments Ev {X} c x.

Inductive Outcome (A : Type) : Type :=
| Returned (a : A)
| Panicked (v : PanicValue).

Arguments Returned {A} a.
Arguments Panicked {A} v.

(** The collaborators over a world [W] (the store and whatever the cloud
    holds).  [IsDefault] is the classifier method of [object.Machine]: a pure
    predicate on the record, it neither reads nor changes the world.  Every
    other call is answered by [handle] and may change the world. *)
Record Env (W : Type) : Type := mkEnv {
  IsDefault : MachinePtr -> bool;
  handle : forall X : Type, Call X -> W -> X * W
}.

Arguments IsDefault {W} e machine.
Arguments handle {W} e {X} c w.

Definition perform {W : Type} (env : Env W) {X : Type} (c : Call X) (w : W) : X * W :=
  match c in Call X0 return (W -> X0 * W) -> X0 * W with
  | Machine_IsDefault machine => fun _ => (IsDefault env machine, w)
  | _ => fun h => h w
  end (handle env c).

Record Run (W A : Type) : Type := mkRun {
  outcome : Outcome A;
  trace : list Event;
  final : W
}.

Arguments mkRun {W A} outcome trace final.
Arguments outcome {W A} r.
Arguments trace {W A} r.
Arguments final {W A} r.

Fixpoint run {W A : Type} (env : Env W) (p : Prog A) (w : W) : Run W A :=
  match p with
  | Ret a => mkRun (Returned a) [] w
  | Panic v => mkRun (Panicked v) [] w
  | Vis c k =>
      let (x, w1) := perform env c w in
      let r := run env (k x) w1 in
      mkRun (outcome r) (Ev c x :: trace r) (final r)
  end.

(** ** The handlers, machine.go lines 34-132 and 158-208 *)

(** [limit := util.ParseInt(limit)]: the function returns a single [int], so
    its failure reaches the handler as a panic. *)
Definition util_ParseInt (s : string) : Prog Z :=
  match ParseInt s with
  | Some n => Ret n
  | None => Panic (ParseIntError s)
  end.

(** Lines 49-55: the loop stops at the first machine that is not default. *)
Fixpoint hasNonDefault (machines : list MachinePtr) : Prog bool :=
  match machines with
  | [] => Ret false
  | machine :: rest =>
      isDefault <- call (Machine_IsDefault machine) ;;
      if negb isDefault then Ret true else hasNonDefault rest
  end.

Section Controllers.

(** Collaborators outside the [object] package, none of them in the
    sources: the two getters of beego's paginator, [util.GetOwnerAndNameFromId]
    and [json.Unmarshal] into a fresh [object.Machine]. *)
Variable Offset : Paginator -> Z.
Variable Nums : Paginator -> Z.
Variable GetOwnerAndNameFromId : string -> string * string.
Variable json_Unmarshal : string -> Machine * error.

(** Lines 65-89: the response of a list request, once the synchronisation
    gate is passed. *)
Definition GetMachines_respond (c : ApiController) : Prog Response :=
  let owner := Get "owner" (Input c) in
  let limit := Get "pageSize" (Input c) in
  let page := Get "p" (Input c) in
  let field := Get "field" (Input c) in
  let value := Get "value" (Input c) in
  let sortField := Get "sortField" (Input c) in
  let sortOrder := Get "sortOrder" (Input c) in
  if (limit =? "") || (page =? "") then
    fetched <- call (object_GetMachines owner) ;;
    '(machines, err) <- call (object_GetMaskedMachines (fst fetched) [snd fetched]) ;;
    match err with
    | Some e => Ret (ResponseError e)
    | None => Ret (ResponseOk [VMachines machines])
    end
  else
    limit <- util_ParseInt limit ;;
    '(count, err) <- call (object_GetMachineCount owner field value) ;;
    match err with
    | Some e => Ret (ResponseError e)
    | None =>
        let paginator := SetPaginator (Ctx c) limit count in
        fetched <- call (object_GetPaginationMachines owner (Offset paginator) limit
                           field value sortField sortOrder) ;;
        '(machines, err) <- call (object_GetMaskedMachines (fst fetched) [snd fetched]) ;;
        match err with
        | Some e => Ret (ResponseError e)
        | None => Ret (ResponseOk [VMachines machines; VInt (Nums paginator)])
        end
    end.

(** Lines 34-90. *)
Definition GetMachines (c : ApiController) : Prog Response :=
  let owner := Get "owner" (Input c) in
  '(machines, err) <- call (object_GetMachines owner) ;;
  match err with
  | Some e => Ret (ResponseError e)
  | None =>
      hasNonDefaultMachine <- hasNonDefault machines ;;
      if hasNonDefaultMachine : bool then
        '(_, err) <- call (object_SyncMachinesCloud owner) ;;
        match err with
        | Some e => Ret (ResponseError e)
        | None => GetMachines_respond c
        end
      else GetMachines_respond c
  end.

(** Lines 99-132. *)
Definition GetMachine (c : ApiController) : Prog Response :=
  let id := Get "id" (Input c) in
  '(machine, err) <- call (object_GetMachine id) ;;
  match err with
  | Some e => Ret (ResponseError e)
  | None =>
      isDefault <- call (Machine_IsDefault machine) ;;
      if isDefault : bool then
        '(maskedMachine, err) <- call (object_GetMaskedMachine machine []) ;;
        match err with
        | Some e => Ret (ResponseError e)
        | None => Ret (ResponseOk [VMachine maskedMachine])
        end
      else
        let (owner, _) := GetOwnerAndNameFromId id in
        '(_, err) <- call (object_SyncMachinesCloud owner) ;;
        match err with
        | Some e => Ret (ResponseError e)
        | None =>
            fetched <- call (object_GetMachine id) ;;
            '(machine, err) <- call (object_GetMaskedMachine (fst fetched) [snd fetched]) ;;
            match err with
            | Some e => Ret (ResponseError e)
            | None => Ret (ResponseOk [VMachine machine])
            end
        end
  end.

(** Lines 158-170. *)
Definition UpdateMachine (c : ApiController) : Prog Response :=
  let id := Get "id" (Input c) in
  let (machine, err) := json_Unmarshal (RequestBody (Ctx c)) in
  match err with
  | Some e => Ret (ResponseError e)
  | None =>
      '(affected, err) <- call (object_UpdateMachine id (Some machine)) ;;
      Ret (ServeJSON (wrapActionResponse affected [err]))
  end.

(** Lines 179-189. *)
Definition AddMachine (c : ApiController) : Prog Response :=
  let (machine, err) := json_Unmarshal (RequestBody (Ctx c)) in
  match err with
  | Some e => Ret (ResponseError e)
  | None =>
      '(affected, err) <- call (object_AddMachine (Some machine)) ;;
      Ret (ServeJSON (wrapActionResponse affected [err]))
  end.

(** Lines 198-208. *)
Definition DeleteMachine (c : ApiController) : Prog Response :=
  let (machine, err) := json_Unmarshal (RequestBody (Ctx c)) in
  match err with
  | Some e => Ret (ResponseError e)
  | None =>
      '(affected, err) <- call (object_DeleteMachine (Some machine)) ;;
      Ret (ServeJSON (wrapActionResponse affected [err]))
  end.

End Controllers.

(** ** Reading a trace *)

Definition is_sync (e : Event) : bool :=
  match e with
  | Ev c _ => match c with object_SyncMachinesCloud _ => true | _ => false end
  end.

Definition is_sync_for (owner : string) (e : Event) : bool :=
  match e with
  | Ev c _ => match c with object_SyncMachinesCloud o => o =? owner | _ => false end
  end.

Definition is_classification (e : Event) : bool :=
  match e with
  | Ev c _ => match c with Machine_IsDefault _ => true | _ => false end
  end.

Definition is_masking (e : Event) : bool :=
  match e with
  | Ev c _ =>
      match c with
      | object_GetMaskedMachines _ _ | object_GetMaskedMachine _ _ => true
      | _ => false
      end
  end.

(** The two queries of the paginated branch: count and page. *)
Definition is_page_query (e : Event) : bool :=
  match e with
  | Ev c _ =>
      match c with
      | object_GetMachineCount _ _ _
      | object_GetPaginationMachines _ _ _ _ _ _ _ => true
      | _ => false
      end
  end.

(** The store writes: add, update and delete. *)
Definition is_store_write (e : Event) : bool :=
  match e with
  | Ev c _ =>
      match c with
      | object_UpdateMachine _ _ | object_AddMachine _ | object_DeleteMachine _ => true
      | _ => false
      end
  end.

(** The error a call came back with, for the calls that return one. *)
Definition error_of (e : Event) : error :=
  match e with
  | Ev c x =>
      match c in Call X return X -> error with
      | Machine_IsDefault _ => fun _ => None
      | object_GetMachines _ => fun r => snd r
      | object_SyncMachinesCloud _ => fun r => snd r
      | object_GetMaskedMachines _ _ => fun r => snd r
      | object_GetMachineCount _ _ _ => fun r => snd r
      | object_GetPaginationMachines _ _ _ _ _ _ _ => fun r => snd r
      | object_GetMachine _ => fun r => snd r
      | object_GetMaskedMachine _ _ => fun r => snd r
      | object_UpdateMachine _ _ => fun r => snd r
      | object_AddMachine _ => fun r => snd r
      | object_DeleteMachine _ => fun r => snd r
      end x
  end.

(** How many events of a trace satisfy [f]. *)
Definition count (f : Event -> bool) (tr : list Event) : nat :=
  length (filter f tr).

(** The classifier calls of the loop of lines 49-55 over [machines]: one per
    machine, up to and including the first that is not default. *)
Fixpoint classification {W : Type} (env : Env W) (machines : list MachinePtr) : list Event :=
  match machines with
  | [] => []
  | machine :: rest =>
      Ev (Machine_IsDefault machine) (IsDefault env machine) ::
      (if IsDefault env machine then classification env rest else [])
  end.

(** A request reaches the unpaginated branch when [pageSize] or [p] is
    empty. *)
Definition unpaginated (c : ApiController) : bool :=
  (Get "pageSize" (Input c) =? "") || (Get "p" (Input c) =? "").

(** [prepend tr r]: the run [r] after the calls [tr]. *)
Definition prepend {W A : Type} (tr : list Event) (r : Run W A) : Run W A :=
  mkRun (outcome r) (tr ++ trace r) (final r).

(** Whether the loop of lines 49-55 finds a machine that is not default. *)
Definition anyNonDefault {W : Type} (env : Env W) (machines : list MachinePtr) : bool :=
  existsb (fun m => negb (IsDefault env m)) machines.

(** What the write path is to do with a decoded body [decoded] and the store
    operation [store] of the handler: on a decode error answer with it and
    call nothing; otherwise call [store], once, and wrap its result; in either
    case mask nothing, classify nothing, synchronise nothing. *)
Definition raw_write_path {W : Type} (decoded : Machine * error)
    (store : Call (bool * error)) (w : W) (r : Run W Response) : Prop :=
  (forall e, snd decoded = Some e ->
     outcome r = Returned (ResponseError e) /\ trace r = [] /\ final r = w) /\
  (snd decoded = None ->
     exists res,
       trace r = [Ev store res] /\
       outcome r = Returned (ServeJSON (wrapActionResponse (fst res) [snd res]))) /\
  count is_store_write (trace r) = length (trace r) /\
  count is_masking (trace r) = 0 /\
  count is_classification (trace r) = 0 /\
  count is_sync (trace r) = 0.

(** The calls of the synchronisation gate of a list request, lines 43-63:
    the owner-wide fetch, the classifier and the synchronisation. *)
Definition is_gate (e : Event) : bool :=
  match e with
  | Ev c _ =>
      match c with
      | object_GetMachines _ | Machine_IsDefault _ | object_SyncMachinesCloud _ => true
      | _ => false
      end
  end.

(** The count query of the paginated branch, line 75. *)
Definition is_count_query (e : Event) : bool :=
  match e with
  | Ev c _ => match c with object_GetMachineCount _ _ _ => true | _ => false end
  end.

(** The page query of the paginated branch, line 82. *)
Definition is_page_fetch (e : Event) : bool :=
  match e with
  | Ev c _ =>
      match c with object_GetPaginationMachines _ _ _ _ _ _ _ => true | _ => false end
  end.

(** What a masking call that came back without an error returned, as the
    datum a handler passes to [ResponseOk]. *)
Definition masked_output (e : Event) : option Value :=
  match e with
  | Ev c x =>
      match c in Call X return X -> option Value with
      | object_GetMaskedMachines _ _ =>
          fun r => match snd r with
                   | None => Some (VMachines (fst r))
                   | Some _ => None
                   end
      | object_GetMaskedMachine _ _ =>
          fun r => match snd r with
                   | None => Some (VMachine (fst r))
                   | Some _ => None
                   end
      | _ => fun _ => None
      end x
  end.

(** The classifier call on one machine, with the answer of the
    environment. *)
Definition classified {W : Type} (env : Env W) (machine : MachinePtr) : Event :=
  Ev (Machine_IsDefault machine) (IsDefault env machine).

(** [masks_fetched f m]: the masking call [m] is given exactly the pair that
    the fetch [f] returned (lines 66, 82 and 125 nest the fetch in the
    masking call). *)
Inductive masks_fetched : Event -> Event -> Prop :=
| masks_list (owner : string) (fetched masked : list MachinePtr * error) :
    masks_fetched (Ev (object_GetMachines owner) fetched)
                  (Ev (object_GetMaskedMachines (fst fetched) [snd fetched]) masked)
| masks_page (owner : string) (offset limit : Z)
    (field value sortField sortOrder : string)
    (fetched masked : list MachinePtr * error) :
    masks_fetched (Ev (object_GetPaginationMachines owner offset limit
                         field value sortField sortOrder) fetched)
                  (Ev (object_GetMaskedMachines (fst fetched) [snd fetched]) masked)
| masks_one (id : string) (fetched masked : MachinePtr * error) :
    masks_fetched (Ev (object_GetMachine id) fetched)
                  (Ev (object_GetMaskedMachine (fst fetched) [snd fetched]) masked).

(** The reads of the store: the owner-wide list, count, page and get-one. *)
Definition is_store_read (e : Event) : bool :=
  match e with
  | Ev c _ =>
      match c with
      | object_GetMachines _ | object_GetMachineCount _ _ _
      | object_GetPaginationMachines _ _ _ _ _ _ _ | object_GetMachine _ => true
      | _ => false
      end
  end.

(** ** A reference store *)

(** Modelled from the spec: the method [IsDefault] of [object.Machine] is not
    in the sources; "a machine is classified default iff" the conditions that
    [isDefaultMachine] of the controller checks hold.  A nil pointer is not a
    default machine. *)
Definition storeIsDefault (machine : MachinePtr) : bool :=
  match machine with
  | Some m => isDefaultMachine m
  | None => false
  end.

(** Modelled from the spec: the scope of an owner, for the list of the
    [object] package that is not in the sources; "owner (may be empty = all
    owners)". *)
Definition in_scope (owner : string) (m : Machine) : bool :=
  (owner =? "") || (Owner m =? owner).

(** The composite id of a record, "owner/name". *)
Definition machineId (m : Machine) : string :=
  (Owner m ++ "/" ++ Name m)%string.

(** The variadic [errs ...error] of the masking functions: only the first
    one is looked at. *)
Definition first_error (errs : list error) : error :=
  match errs with
  | e :: _ => e
  | [] => None
  end.

Section StoreModel.

(** What the spec leaves open about the store: which records a filter
    (owner, field, value) selects, how (sortField, sortOrder) orders them,
    which fields masking redacts, and what the cloud reports. *)
Variable matches : string -> string -> string -> Machine -> bool.
Variable sortBy : string -> string -> list Machine -> list Machine.
Variable mask : Machine -> Machine.
Variable cloud : string -> list Machine -> (bool * error) * list Machine.

Definition maskPtr (p : MachinePtr) : MachinePtr := option_map mask p.

(** The matching records of a paginated query, in order. *)
Definition selection (owner field value sortField sortOrder : string)
    (db : list Machine) : list Machine :=
  sortBy sortField sortOrder (filter (matches owner field value) db).

(** Modelled from the spec: the [object] package (store, masking and cloud
    synchronisation) is not in the sources.  The store is the list of its
    records.  [ListMachines(owner)] is the owner's scope, every record when
    the owner is empty; [CountMachines] the
    number of records matching owner, field and value; [ListMachinesPage] the
    slice of at most [limit] matching records from [offset] on, sorted;
    [GetMachineById] "fails with not-found if absent"; masking is "its plural
    form over a sequence" and hands an error it is given back; [SyncCloud]
    "reconciles provider-reported machines into the store for that owner";
    add, update and delete act on the record with the given identity and
    report whether a record was affected. *)
Definition storeHandle (X : Type) (c : Call X) (db : list Machine) : X * list Machine :=
  match c in Call X0 return X0 * list Machine with
  | object_GetMachines owner =>
      ((map Some (filter (in_scope owner) db), None), db)
  | Machine_IsDefault machine => (storeIsDefault machine, db)
  | object_SyncMachinesCloud owner => cloud owner db
  | object_GetMaskedMachines machines errs =>
      (match first_error errs with
       | Some e => ([], Some e)
       | None => (map maskPtr machines, None)
       end, db)
  | object_GetMachineCount owner field value =>
      ((Z.of_nat (length (filter (matches owner field value) db)), None), db)
  | object_GetPaginationMachines owner offset limit field value sortField sortOrder =>
      ((map Some (firstn (Z.to_nat limit) (skipn (Z.to_nat offset)
                    (selection owner field value sortField sortOrder db))), None), db)
  | object_GetMachine id =>
      (match find (fun m => machineId m =? id) db with
       | Some m => (Some m, None)
       | None => (None, Some "not found")
       end, db)
  | object_GetMaskedMachine machine errs =>
      (match first_error errs with
       | Some e => (None, Some e)
       | None => (maskPtr machine, None)
       end, db)
  | object_UpdateMachine id machine =>
      match machine with
      | Some m =>
          ((existsb (fun old => machineId old =? id) db, None),
           map (fun old => if machineId old =? id then m else old) db)
      | None => ((false, None), db)
      end
  | object_AddMachine machine =>
      match machine with
      | Some m =>
          if existsb (fun old => machineId old =? machineId m) db
          then ((false, None), db)
          else ((true, None), db ++ [m])
      | None => ((false, None), db)
      end
  | object_DeleteMachine machine =>
      match machine with
      | Some m =>
          ((existsb (fun old => machineId old =? machineId m) db, None),
           filter (fun old => negb (machineId old =? machineId m)) db)
      | None => ((false, None), db)
      end
  end.

Definition storeEnv : Env (list Machine) := mkEnv _ storeIsDefault storeHandle.

End StoreModel.

(** ** A small instance: the scenario of two machines owned by alice *)

Definition fieldOf (field : string) (m : Machine) : string :=
  if field =? "owner" then Owner m
  else if field =? "name" then Name m
  else if field =? "displayName" then DisplayName m
  else if field =? "provider" then Provider m
  else if field =? "state" then State m
  else if field =? "tag" then Tag m
  else if field =? "expireTime" then ExpireTime m
  else if field =? "publicIp" then PublicIp m
  else if field =? "privateIp" then PrivateIp m
  else "".

Definition demo_matches (owner field value : string) (m : Machine) : bool :=
  in_scope owner m && ((field =? "") || (fieldOf field m =? value)).

Definition demo_sortBy (sortField sortOrder : string) (l : list Machine) : list Machine :=
  if sortOrder =? "descend" then rev l else l.

(** Redaction stand-in: the private address is starred out. *)
Definition demo_mask (m : Machine) : Machine :=
  mkMachine (Owner m) (Name m) (DisplayName m) (Provider m) (State m) (Tag m)
            (ExpireTime m) (PublicIp m)
            (if PrivateIp m =? "" then "" else "***").

(** A cloud that reports every real machine of the owner as running. *)
Definition demo_cloud (owner : string) (db : list Machine) : (bool * error) * list Machine :=
  ((true, None),
   map (fun m =>
          if in_scope owner m && negb (isDefaultMachine m)
          then mkMachine (Owner m) (Name m) (DisplayName m) (Provider m) "Running"
                         (Tag m) (ExpireTime m) (PublicIp m) (PrivateIp m)
          else m) db).

(** A cloud that cannot be reached. *)
Definition down_cloud (owner : string) (db : list Machine) : (bool * error) * list Machine :=
  ((false, Some "cloud unreachable"), db).

Definition demoEnv : Env (list Machine) :=
  storeEnv demo_matches demo_sortBy demo_mask demo_cloud.

Definition downEnv : Env (list Machine) :=
  storeEnv demo_matches demo_sortBy demo_mask down_cloud.

(** A paginator in the manner of beego's: a page size that is not positive
    counts as 10, the page is read from the request's [p] and clamped to
    [1 .. number of pages], a [p] that is no number counts as page 1. *)
Definition demo_Offset (p : Paginator) : Z :=
  match p with
  | SetPaginator ctx per nums =>
      let per := if (per <=? 0)%Z then 10%Z else per in
      let pageNums := ((nums + per - 1) / per)%Z in
      let page := match ParseInt (Get "p" (Form ctx)) with Some n => n | None => 0%Z end in
      let page := if (pageNums <? page)%Z then pageNums else page in
      let page := if (page <=? 0)%Z then 1%Z else page in
      ((page - 1) * per)%Z
  end.

Definition demo_Nums (p : Paginator) : Z :=
  match p with
  | SetPaginator _ _ nums => nums
  end.

Fixpoint demo_GetOwnerAndNameFromId (id : string) : string * string :=
  match id with
  | EmptyString => ("", "")
  | String a rest =>
      if Ascii.eqb a "/" then ("", rest)
      else let (owner, name) := demo_GetOwnerAndNameFromId rest in (String a owner, name)
  end.

Definition zeroMachine : Machine := mkMachine "" "" "" "" "" "" "" "" "".

(** A decoder stand-in: the body is the id of the machine; an empty body is
    rejected the way [json.Unmarshal] rejects empty input. *)
Definition demo_Unmarshal (body : string) : Machine * error :=
  if body =? "" then (zeroMachine, Some "unexpected end of JSON input")
  else let (owner, name) := demo_GetOwnerAndNameFromId body in
       (mkMachine owner name "" "" "" "" "" "" "", None).

Definition machine_1 : Machine :=
  mkMachine "alice" "machine_1" "New Machine - x" "provider_1" "Active" "" "" "" "".

Definition web_1 : Machine :=
  mkMachine "alice" "web_1" "Web server" "aws" "Stopped" "" "" "1.2.3.4" "10.0.0.4".

Definition aliceStore : list Machine := [machine_1; web_1].

(** A request with the given query parameters and an empty body. *)
Definition request (form : Values) : ApiController :=
  mkApiController (mkContext form "").

(** A request with a body and no query parameters. *)
Definition post (body : string) : ApiController :=
  mkApiController (mkContext [] body).

(** A store that is down: every call that can fail fails, nothing is
    default, nothing changes. *)
Definition outageHandle (X : Type) (c : Call X) (w : unit) : X * unit :=
  let down : error := Some "database is down" in
  match c in Call X0 return X0 * unit with
  | object_GetMachines _ => (([], down), w)
  | Machine_IsDefault _ => (false, w)
  | object_SyncMachinesCloud _ => ((false, down), w)
  | object_GetMaskedMachines _ _ => (([], down), w)
  | object_GetMachineCount _ _ _ => ((0%Z, down), w)
  | object_GetPaginationMachines _ _ _ _ _ _ _ => (([], down), w)
  | object_GetMachine _ => ((None, down), w)
  | object_GetMaskedMachine _ _ => ((None, down), w)
  | object_UpdateMachine _ _ => ((false, down), w)
  | object_AddMachine _ => ((false, down), w)
  | object_DeleteMachine _ => ((false, down), w)
  end.

Definition outageEnv : Env unit := mkEnv _ (fun _ => false) outageHandle.

(** The requests of the examples. *)
Definition alice_list : ApiController := request [("owner", "alice")].

Definition alice_list_filtered : ApiController :=
  request [("owner", "alice"); ("field", "state"); ("value", "Active");
           ("sortField", "name"); ("sortOrder", "descend")].

Definition alice_page_2 : ApiController :=
  request [("owner", "alice"); ("pageSize", "1"); ("p", "2")].

Definition alice_pageSize_abc : ApiController :=
  request [("owner", "alice"); ("pageSize", "abc"); ("p", "1")].

Definition alice_page_abc : ApiController :=
  request [("owner", "alice"); ("pageSize", "10"); ("p", "abc")].

Definition get_machine_1 : ApiController := request [("id", "alice/machine_1")].

Definition get_web_1 : ApiController := request [("id", "alice/web_1")].

(** [web_1] as it goes out once the demo cloud reported it running. *)
Definition web_1_masked : Machine :=
  mkMachine "alice" "web_1" "Web server" "aws" "Running" "" "" "1.2.3.4" "***".

(** The demo store with a count query that fails. *)
Definition countDownHandle (X : Type) (c : Call X) (db : list Machine) : X * list Machine :=
  match c in Call X0 return (list Machine -> X0 * list Machine) -> X0 * list Machine with
  | object_GetMachineCount _ _ _ => fun _ => ((0%Z, Some "count failed"), db)
  | _ => fun h => h db
  end (storeHandle demo_matches demo_sortBy demo_mask demo_cloud X c).

Definition countDownEnv : Env (list Machine) :=
  mkEnv _ storeIsDefault countDownHandle.

(** A page size that is an integer but no size. *)
Definition alice_pageSize_minus_1 : ApiController :=
  request [("owner", "alice"); ("pageSize", "-1"); ("p", "1")].

(** [web_1] as the demo cloud reports it. *)
Definition web_1_synced : Machine :=
  mkMachine "alice" "web_1" "Web server" "aws" "Running" "" "" "1.2.3.4" "10.0.0.4".

(** A third machine of alice, and a store that lists it after [web_1]. *)
Definition db_1 : Machine :=
  mkMachine "alice" "db_1" "Database" "azure" "Active" "" "" "" "10.0.0.5".

Definition aliceStore3 : list Machine := [machine_1; web_1; db_1].

Definition get_missing : ApiController := request [("id", "alice/nope")].

(** ** Properties of the classifier *)

Lemma HasPrefix_app (prefix rest : string) : HasPrefix (prefix ++ rest)%string prefix = true.
Proof.
  induction prefix as [|p prefix IH]; simpl.
  - reflexivity.
  - rewrite Ascii.eqb_refl. exact IH.
Qed.

Lemma HasPrefix_inv (prefix s : string) :
  HasPrefix s prefix = true -> exists rest, s = (prefix ++ rest)%string.
Proof.
  revert s. induction prefix as [|p prefix IH]; intros s H; simpl in *.
  - exists s. reflexivity.
  - destruct s as [|a s']; [discriminate|].
    destruct (Ascii.eqb a p) eqn:E; [|discriminate].
    apply Ascii.eqb_eq in E. subst a.
    destruct (IH s' H) as [rest ->]. exists rest. reflexivity.
Qed.

Lemma HasPrefix_iff (prefix s : string) :
  HasPrefix s prefix = true <-> exists rest, s = (prefix ++ rest)%string.
Proof.
  split.
  - apply HasPrefix_inv.
  - intros [rest ->]. apply HasPrefix_app.
Qed.

Lemma isDefaultMachine_pattern (m : Machine) :
  isDefaultMachine m = true <-> DefaultPattern m.
Proof.
  unfold isDefaultMachine. split.
  - intros H.
    destruct (PublicIp m =? "") eqn:E1; [|discriminate].
    destruct (PrivateIp m =? "") eqn:E2; [|discriminate].
    destruct (HasPrefix (Name m) "machine_") eqn:E3; [|discriminate].
    destruct (HasPrefix (DisplayName m) "New Machine - ") eqn:E4; [|discriminate].
    cbn [andb] in H.
    repeat (apply andb_true_iff in H; destruct H as [H ?]).
    constructor;
      try (apply String.eqb_eq; assumption);
      apply HasPrefix_inv; assumption.
  - intros [H1 H2 H3 H4 H5 H6 H7 H8].
    apply HasPrefix_iff in H3, H4.
    rewrite H1, H2, H3, H4, H5, H6, H7, H8. reflexivity.
Qed.

(** C1.  [isDefaultMachine m] is true exactly when the public and the private
    IP are empty, the name starts with "machine_", the display name starts
    with "New Machine - ", the provider is "provider_1", the state is
    "Active", and tag and expire time are empty; as soon as one of these
    eight conditions fails, the result is false. *)
Theorem isDefaultMachine_spec (m : Machine) :
  (isDefaultMachine m = true <->
     PublicIp m = "" /\ PrivateIp m = "" /\
     (exists rest, Name m = ("machine_" ++ rest)%string) /\
     (exists rest, DisplayName m = ("New Machine - " ++ rest)%string) /\
     Provider m = "provider_1" /\ State m = "Active" /\
     Tag m = "" /\ ExpireTime m = "")
  /\
  (PublicIp m <> "" \/ PrivateIp m <> "" \/
   ~ (exists rest, Name m = ("machine_" ++ rest)%string) \/
   ~ (exists rest, DisplayName m = ("New Machine - " ++ rest)%string) \/
   Provider m <> "provider_1" \/ State m <> "Active" \/
   Tag m <> "" \/ ExpireTime m <> ""
   -> isDefaultMachine m = false).
Proof.
  split.
  - rewrite isDefaultMachine_pattern. split.
    + intros [H1 H2 H3 H4 H5 H6 H7 H8]. repeat split; assumption.
    + intros (H1 & H2 & H3 & H4 & H5 & H6 & H7 & H8). constructor; assumption.
  - intros H. apply not_true_is_false. rewrite isDefaultMachine_pattern.
    intros [H1 H2 H3 H4 H5 H6 H7 H8].
    destruct H as [H|[H|[H|[H|[H|[H|[H|H]]]]]]]; apply H; assumption.
Qed.

(** ** Running handler programs *)

Lemma prepend_nil {W A : Type} (r : Run W A) : prepend [] r = r.
Proof. destruct r. reflexivity. Qed.

Lemma run_bind {W A B : Type} (env : Env W) (p : Prog A) (f : A -> Prog B) (w : W) :
  run env (bind p f) w =
  match outcome (run env p w) with
  | Returned a => prepend (trace (run env p w)) (run env (f a) (final (run env p w)))
  | Panicked v => mkRun (Panicked v) (trace (run env p w)) (final (run env p w))
  end.
Proof.
  revert w. induction p as [a|v|X c k IH]; intros w; cbn [bind run outcome trace final].
  - symmetry. apply prepend_nil.
  - reflexivity.
  - destruct (perform env c w) as [x w1]. rewrite IH.
    destruct (outcome (run env (k x) w1)); reflexivity.
Qed.

Lemma run_hasNonDefault {W : Type} (env : Env W) (machines : list MachinePtr) (w : W) :
  run env (hasNonDefault machines) w =
  mkRun (Returned (anyNonDefault env machines)) (classification env machines) w.
Proof.
  induction machines as [|m rest IH]; cbn.
  - reflexivity.
  - destruct (IsDefault env m); cbn.
    + rewrite IH. reflexivity.
    + reflexivity.
Qed.

Lemma anyNonDefault_true {W : Type} (env : Env W) (machines : list MachinePtr) :
  anyNonDefault env machines = true <->
  exists m, In m machines /\ IsDefault env m = false.
Proof.
  unfold anyNonDefault. rewrite existsb_exists.
  split; intros [m [Hin H]]; exists m; split; try assumption.
  - now apply negb_true_iff.
  - now apply negb_true_iff.
Qed.

Lemma anyNonDefault_false {W : Type} (env : Env W) (machines : list MachinePtr) :
  anyNonDefault env machines = false <->
  forall m, In m machines -> IsDefault env m = true.
Proof.
  unfold anyNonDefault. split.
  - intros H m Hin. destruct (IsDefault env m) eqn:E; [reflexivity|].
    assert (existsb (fun m0 => negb (IsDefault env m0)) machines = true) as Ht.
    { apply existsb_exists. exists m. split; [assumption|]. now rewrite E. }
    congruence.
  - intros H. apply not_true_is_false. intros Ht.
    apply existsb_exists in Ht. destruct Ht as [m [Hin Hm]].
    rewrite (H m Hin) in Hm. discriminate.
Qed.

Lemma count_app (f : Event -> bool) (a b : list Event) :
  count f (a ++ b) = count f a + count f b.
Proof. unfold count. rewrite filter_app, length_app. reflexivity. Qed.

Lemma Forall_classification {W : Type} (env : Env W) (machines : list MachinePtr) :
  Forall (fun e => is_classification e = true) (classification env machines).
Proof.
  induction machines as [|m rest IH]; cbn; constructor.
  - reflexivity.
  - destruct (IsDefault env m); [exact IH|constructor].
Qed.

Lemma count_none (f : Event -> bool) (tr : list Event) :
  Forall (fun ev => f ev = false) tr -> count f tr = 0.
Proof.
  unfold count. induction 1 as [|ev tr Hev _ IH]; cbn.
  - reflexivity.
  - rewrite Hev. exact IH.
Qed.

Lemma is_sync_for_false (owner : string) (ev : Event) :
  is_sync ev = false -> is_sync_for owner ev = false.
Proof. destruct ev as [X c x]. destruct c; cbn; congruence. Qed.

Lemma no_sync_for (owner : string) (tr : list Event) :
  Forall (fun ev => is_sync ev = false) tr ->
  Forall (fun ev => is_sync_for owner ev = false) tr.
Proof.
  intros H. eapply Forall_impl; [|exact H].
  intros ev. apply is_sync_for_false.
Qed.

Lemma classification_no_sync {W : Type} (env : Env W) (machines : list MachinePtr) :
  Forall (fun ev => is_sync ev = false) (classification env machines).
Proof.
  eapply Forall_impl; [|apply Forall_classification].
  intros [X c x]. destruct c; cbn; congruence.
Qed.

Lemma sync_not_among (tr : list Event) (ev : Event) :
  Forall (fun ev0 => is_sync ev0 = false) tr -> In ev tr -> is_sync ev = true -> False.
Proof.
  intros Hall Hin Hev. rewrite Forall_forall in Hall.
  specialize (Hall ev Hin). congruence.
Qed.

(** ** The runs of the two read handlers *)

Section ReadHandlers.

Variable Offset : Paginator -> Z.
Variable Nums : Paginator -> Z.
Variable GetOwnerAndNameFromId : string -> string * string.
Variable W : Type.
Variable env : Env W.

(** The run of a list request, branch by branch. *)
Lemma run_GetMachines (c : ApiController) (w : W) :
  let owner := Get "owner" (Input c) in
  run env (GetMachines Offset Nums c) w =
  let (fetched, w1) := handle env (object_GetMachines owner) w in
  match snd fetched with
  | Some e =>
      mkRun (Returned (ResponseError e)) [Ev (object_GetMachines owner) fetched] w1
  | None =>
      let pre := Ev (object_GetMachines owner) fetched :: classification env (fst fetched) in
      if anyNonDefault env (fst fetched) then
        let (synced, w2) := handle env (object_SyncMachinesCloud owner) w1 in
        match snd synced with
        | Some e =>
            mkRun (Returned (ResponseError e))
                  (pre ++ [Ev (object_SyncMachinesCloud owner) synced]) w2
        | None =>
            prepend (pre ++ [Ev (object_SyncMachinesCloud owner) synced])
                    (run env (GetMachines_respond Offset Nums c) w2)
        end
      else prepend pre (run env (GetMachines_respond Offset Nums c) w1)
  end.
Proof.
  intros owner. unfold GetMachines. fold owner.
  cbn [bind call run perform].
  destruct (handle env (object_GetMachines owner) w) as [[machines err] w1].
  cbn [fst snd]. destruct err as [e|]; [reflexivity|].
  rewrite run_bind, run_hasNonDefault. cbn [outcome trace final].
  destruct (anyNonDefault env machines).
  - cbn [bind call run perform].
    destruct (handle env (object_SyncMachinesCloud owner) w1) as [[affected err] w2].
    cbn [fst snd]. destruct err as [e|]; unfold prepend; cbn.
    + reflexivity.
    + rewrite <- ?app_assoc. reflexivity.
  - unfold prepend. cbn. rewrite ?app_nil_r. reflexivity.
Qed.

(** The unpaginated branch, lines 65-72: re-fetch the owner's machines and
    mask what came back. *)
Lemma run_respond_unpaginated (c : ApiController) (w : W) :
  unpaginated c = true ->
  let owner := Get "owner" (Input c) in
  run env (GetMachines_respond Offset Nums c) w =
  let (fetched, w1) := handle env (object_GetMachines owner) w in
  let (masked, w2) :=
    handle env (object_GetMaskedMachines (fst fetched) [snd fetched]) w1 in
  mkRun (Returned (match snd masked with
                   | Some e => ResponseError e
                   | None => ResponseOk [VMachines (fst masked)]
                   end))
        [Ev (object_GetMachines owner) fetched;
         Ev (object_GetMaskedMachines (fst fetched) [snd fetched]) masked]
        w2.
Proof.
  intros Hun owner. unfold GetMachines_respond, unpaginated in *. rewrite Hun.
  fold owner. cbn [bind call run perform].
  destruct (handle env (object_GetMachines owner) w) as [fetched w1].
  cbn [bind call run perform].
  destruct (handle env _ w1) as [[machines err] w2].
  cbn [fst snd]. destruct err; reflexivity.
Qed.

(** The paginated branch, lines 73-89. *)
Lemma run_respond_paginated (c : ApiController) (w : W) :
  unpaginated c = false ->
  let owner := Get "owner" (Input c) in
  let limit := Get "pageSize" (Input c) in
  let field := Get "field" (Input c) in
  let value := Get "value" (Input c) in
  let sortField := Get "sortField" (Input c) in
  let sortOrder := Get "sortOrder" (Input c) in
  run env (GetMachines_respond Offset Nums c) w =
  match ParseInt limit with
  | None => mkRun (Panicked (ParseIntError limit)) [] w
  | Some k =>
      let (counted, w1) := handle env (object_GetMachineCount owner field value) w in
      match snd counted with
      | Some e =>
          mkRun (Returned (ResponseError e))
                [Ev (object_GetMachineCount owner field value) counted] w1
      | None =>
          let paginator := SetPaginator (Ctx c) k (fst counted) in
          let page := object_GetPaginationMachines owner (Offset paginator) k
                        field value sortField sortOrder in
          let (fetched, w2) := handle env page w1 in
          let (masked, w3) :=
            handle env (object_GetMaskedMachines (fst fetched) [snd fetched]) w2 in
          mkRun (Returned (match snd masked with
                           | Some e => ResponseError e
                           | None => ResponseOk [VMachines (fst masked);
                                                 VInt (Nums paginator)]
                           end))
                [Ev (object_GetMachineCount owner field value) counted;
                 Ev page fetched;
                 Ev (object_GetMaskedMachines (fst fetched) [snd fetched]) masked]
                w3
      end
  end.
Proof.
  intros Hpg owner limit field value sortField sortOrder.
  unfold GetMachines_respond, unpaginated in *. rewrite Hpg.
  fold owner limit field value sortField sortOrder.
  unfold util_ParseInt. destruct (ParseInt limit) as [k|]; [|reflexivity].
  cbn [bind call run perform].
  destruct (handle env (object_GetMachineCount owner field value) w) as [[n err] w1].
  cbn [fst snd]. destruct err as [e|]; [reflexivity|].
  cbn [bind call run perform].
  destruct (handle env _ w1) as [fetched w2].
  cbn [bind call run perform].
  destruct (handle env _ w2) as [[machines err] w3].
  cbn [fst snd]. destruct err; reflexivity.
Qed.

(** After the gate no synchronisation is started any more. *)
Lemma respond_no_sync (c : ApiController) (w : W) :
  Forall (fun ev => is_sync ev = false)
         (trace (run env (GetMachines_respond Offset Nums c) w)).
Proof.
  destruct (unpaginated c) eqn:Hc.
  - rewrite (run_respond_unpaginated c w Hc).
    destruct (handle env (object_GetMachines _) w) as [fetched w1].
    destruct (handle env _ w1) as [masked w2].
    cbn. repeat constructor.
  - rewrite (run_respond_paginated c w Hc).
    destruct (ParseInt _); [|constructor].
    destruct (handle env (object_GetMachineCount _ _ _) w) as [[n err] w1].
    cbn [snd fst]. destruct err; [repeat constructor|].
    destruct (handle env _ w1) as [fetched w2].
    destruct (handle env _ w2) as [masked w3].
    cbn. repeat constructor.
Qed.

(** How often a list request starts a synchronisation, and for whom. *)
Lemma GetMachines_sync_count (c : ApiController) (w : W) :
  let owner := Get "owner" (Input c) in
  let fetched := fst (handle env (object_GetMachines owner) w) in
  let tr := trace (run env (GetMachines Offset Nums c) w) in
  let n := match snd fetched with
           | Some _ => 0
           | None => if anyNonDefault env (fst fetched) then 1 else 0
           end in
  count is_sync tr = n /\ count (is_sync_for owner) tr = n.
Proof.
  intros owner fetched tr n. subst tr n fetched.
  rewrite run_GetMachines. fold owner.
  destruct (handle env (object_GetMachines owner) w) as [[machines err] w1].
  cbn [fst snd]. destruct err as [e|]; [split; reflexivity|].
  pose proof (classification_no_sync env machines) as Hcls.
  destruct (anyNonDefault env machines).
  - destruct (handle env (object_SyncMachinesCloud owner) w1) as [[affected err] w2].
    cbn [fst snd].
    assert (is_sync_for owner (Ev (object_SyncMachinesCloud owner) (affected, err)) = true)
      as Hsync by (cbn; apply String.eqb_refl).
    destruct err as [e|]; cbn [trace prepend].
    + change (Ev (object_GetMachines owner) (machines, None) :: classification env machines)
        with ([Ev (object_GetMachines owner) (machines, None)] ++ classification env machines).
      rewrite !count_app, !(count_none _ _ Hcls), !(count_none _ _ (no_sync_for owner _ Hcls)).
      unfold count. cbn [filter is_sync]. rewrite Hsync. split; reflexivity.
    + pose proof (respond_no_sync c w2) as Hrest.
      change (Ev (object_GetMachines owner) (machines, None) :: classification env machines)
        with ([Ev (object_GetMachines owner) (machines, None)] ++ classification env machines).
      rewrite !count_app, !(count_none _ _ Hcls), !(count_none _ _ (no_sync_for owner _ Hcls)),
        !(count_none _ _ Hrest), !(count_none _ _ (no_sync_for owner _ Hrest)).
      unfold count. cbn [filter is_sync]. rewrite Hsync. split; reflexivity.
  - pose proof (respond_no_sync c w1) as Hrest. cbn [trace prepend].
    change (Ev (object_GetMachines owner) (machines, None) :: classification env machines)
      with ([Ev (object_GetMachines owner) (machines, None)] ++ classification env machines).
    rewrite !count_app, !(count_none _ _ Hcls), !(count_none _ _ (no_sync_for owner _ Hcls)),
      !(count_none _ _ Hrest), !(count_none _ _ (no_sync_for owner _ Hrest)).
    split; reflexivity.
Qed.

(** C2.  A list request starts cloud synchronisation only for the owner it
    asks about, and, when the first fetch of the owner's machines succeeds,
    exactly once if and only if one of the fetched machines is not default;
    when the fetched set is empty or all of it is default (or the fetch
    fails), no synchronisation is started. *)
Theorem GetMachines_sync_gate (c : ApiController) (w : W) :
  let owner := Get "owner" (Input c) in
  let fetched := fst (handle env (object_GetMachines owner) w) in
  let tr := trace (run env (GetMachines Offset Nums c) w) in
  count is_sync tr = count (is_sync_for owner) tr /\
  (snd fetched = None ->
     (count is_sync tr = 1 <->
        exists m, In m (fst fetched) /\ IsDefault env m = false) /\
     (count is_sync tr = 0 <->
        forall m, In m (fst fetched) -> IsDefault env m = true)) /\
  (fst fetched = [] -> count is_sync tr = 0) /\
  (snd fetched <> None -> count is_sync tr = 0).
Proof.
  intros owner fetched tr.
  destruct (GetMachines_sync_count c w) as [Hall Hown].
  fold owner fetched tr in Hall, Hown. cbv zeta in Hall, Hown.
  rewrite Hall, Hown. split; [reflexivity|]. split; [|split].
  - intros Hok. rewrite Hok.
    rewrite <- anyNonDefault_true, <- anyNonDefault_false.
    destruct (anyNonDefault env (fst fetched)); split; split; congruence.
  - intros Hnil. rewrite Hnil. destruct (snd fetched); reflexivity.
  - intros Herr. destruct (snd fetched); congruence.
Qed.

(** The run of a get-one request, branch by branch. *)
Lemma run_GetMachine (c : ApiController) (w : W) :
  let id := Get "id" (Input c) in
  run env (GetMachine GetOwnerAndNameFromId c) w =
  let (fetched, w1) := handle env (object_GetMachine id) w in
  match snd fetched with
  | Some e => mkRun (Returned (ResponseError e)) [Ev (object_GetMachine id) fetched] w1
  | None =>
      let machine := fst fetched in
      let pre := [Ev (object_GetMachine id) fetched;
                  Ev (Machine_IsDefault machine) (IsDefault env machine)] in
      if IsDefault env machine then
        let (masked, w2) := handle env (object_GetMaskedMachine machine []) w1 in
        mkRun (Returned (match snd masked with
                         | Some e => ResponseError e
                         | None => ResponseOk [VMachine (fst masked)]
                         end))
              (pre ++ [Ev (object_GetMaskedMachine machine []) masked]) w2
      else
        let owner := fst (GetOwnerAndNameFromId id) in
        let (synced, w2) := handle env (object_SyncMachinesCloud owner) w1 in
        match snd synced with
        | Some e =>
            mkRun (Returned (ResponseError e))
                  (pre ++ [Ev (object_SyncMachinesCloud owner) synced]) w2
        | None =>
            let (refetched, w3) := handle env (object_GetMachine id) w2 in
            let (masked, w4) :=
              handle env (object_GetMaskedMachine (fst refetched) [snd refetched]) w3 in
            mkRun (Returned (match snd masked with
                             | Some e => ResponseError e
                             | None => ResponseOk [VMachine (fst masked)]
                             end))
                  (pre ++ [Ev (object_SyncMachinesCloud owner) synced;
                           Ev (object_GetMachine id) refetched;
                           Ev (object_GetMaskedMachine (fst refetched) [snd refetched]) masked])
                  w4
        end
  end.
Proof.
  intros id. unfold GetMachine. fold id.
  cbn [bind call run perform].
  destruct (handle env (object_GetMachine id) w) as [[machine err] w1].
  cbn [fst snd]. destruct err as [e|]; [reflexivity|].
  cbn [bind call run perform outcome trace final].
  destruct (IsDefault env machine).
  - cbn [bind call run perform].
    destruct (handle env (object_GetMaskedMachine machine []) w1) as [[masked err] w2].
    cbn [fst snd]. destruct err; reflexivity.
  - destruct (GetOwnerAndNameFromId id) as [owner name]. cbn [fst].
    cbn [bind call run perform].
    destruct (handle env (object_SyncMachinesCloud owner) w1) as [[affected err] w2].
    cbn [fst snd]. destruct err as [e|]; [reflexivity|].
    cbn [bind call run perform].
    destruct (handle env (object_GetMachine id) w2) as [refetched w3].
    cbn [bind call run perform].
    destruct (handle env _ w3) as [[masked err] w4].
    cbn [fst snd]. destruct err; reflexivity.
Qed.

(** C3.  When the store answers a get-one request with a record, and the
    owner half of the requested id is that record's owner: for a default
    record the handler classifies, masks and answers, and starts no
    synchronisation; for a record that is not default its next call is a
    synchronisation for the record's owner, the only one of the run, and when
    that succeeds it fetches the record again, masks what it fetched and
    answers with the result. *)
Theorem GetMachine_sync_rule (c : ApiController) (w w1 : W) (rec : Machine) :
  let id := Get "id" (Input c) in
  let r := run env (GetMachine GetOwnerAndNameFromId c) w in
  let first := [Ev (object_GetMachine id) (Some rec, None);
                Ev (Machine_IsDefault (Some rec)) (IsDefault env (Some rec))] in
  let sync := object_SyncMachinesCloud (Owner rec) in
  handle env (object_GetMachine id) w = ((Some rec, None), w1) ->
  fst (GetOwnerAndNameFromId id) = Owner rec ->
  if IsDefault env (Some rec) then
    count is_sync (trace r) = 0 /\
    exists masked,
      trace r = first ++ [Ev (object_GetMaskedMachine (Some rec) []) masked] /\
      outcome r = Returned (match snd masked with
                            | Some e => ResponseError e
                            | None => ResponseOk [VMachine (fst masked)]
                            end)
  else
    count is_sync (trace r) = 1 /\
    count (is_sync_for (Owner rec)) (trace r) = 1 /\
    exists synced,
      match snd synced with
      | Some e =>
          trace r = first ++ [Ev sync synced] /\
          outcome r = Returned (ResponseError e)
      | None =>
          exists refetched masked,
            trace r = first ++
                      [Ev sync synced;
                       Ev (object_GetMachine id) refetched;
                       Ev (object_GetMaskedMachine (fst refetched) [snd refetched]) masked] /\
            outcome r = Returned (match snd masked with
                                  | Some e => ResponseError e
                                  | None => ResponseOk [VMachine (fst masked)]
                                  end)
      end.
Proof.
  intros id r first sync Hfetch Hown. subst r first sync.
  rewrite run_GetMachine. fold id. rewrite Hfetch. cbn [fst snd]. rewrite Hown.
  destruct (IsDefault env (Some rec)).
  - destruct (handle env (object_GetMaskedMachine (Some rec) []) w1) as [masked w2].
    split; [reflexivity|]. exists masked. split; reflexivity.
  - destruct (handle env (object_SyncMachinesCloud (Owner rec)) w1) as [[affected err] w2].
    assert (forall tl, Forall (fun ev => is_sync ev = false) tl ->
              count is_sync
                    (Ev (object_SyncMachinesCloud (Owner rec)) (affected, err) :: tl) = 1 /\
              count (is_sync_for (Owner rec))
                    (Ev (object_SyncMachinesCloud (Owner rec)) (affected, err) :: tl) = 1)
      as Hone.
    { intros tl Htl. unfold count. cbn [filter is_sync is_sync_for].
      rewrite String.eqb_refl. cbn [length].
      fold (count is_sync tl). fold (count (is_sync_for (Owner rec)) tl).
      rewrite (count_none _ _ Htl), (count_none _ _ (no_sync_for _ _ Htl)).
      split; reflexivity. }
    cbn [snd]. destruct err as [e|].
    + cbn [trace outcome app]. unfold count at 1 2. cbn [filter is_sync is_sync_for].
      destruct (Hone [] (Forall_nil _)) as [H1 H2].
      split; [exact H1|]. split; [exact H2|].
      exists (affected, Some e). cbn [snd]. split; reflexivity.
    + destruct (handle env (object_GetMachine id) w2) as [refetched w3].
      destruct (handle env _ w3) as [masked w4].
      cbn [trace outcome app]. unfold count at 1 2. cbn [filter is_sync is_sync_for].
      destruct (Hone [Ev (object_GetMachine id) refetched;
                      Ev (object_GetMaskedMachine (fst refetched) [snd refetched]) masked])
        as [H1 H2]; [repeat constructor|].
      split; [exact H1|]. split; [exact H2|].
      exists (affected, None). cbn [snd]. exists refetched, masked. split; reflexivity.
Qed.

(** C4.  In a list request and in a get-one request alike: when a
    synchronisation call of the run came back with an error, the response is
    that error, the synchronisation is the last call of the run (nothing is
    fetched again), and nothing was masked, so no machine data goes out. *)
Theorem sync_error_aborts (c : ApiController) (w : W) :
  (forall ev e,
     let r := run env (GetMachines Offset Nums c) w in
     In ev (trace r) -> is_sync ev = true -> error_of ev = Some e ->
     outcome r = Returned (ResponseError e) /\
     (exists pre, trace r = pre ++ [ev]) /\
     count is_masking (trace r) = 0) /\
  (forall ev e,
     let r := run env (GetMachine GetOwnerAndNameFromId c) w in
     In ev (trace r) -> is_sync ev = true -> error_of ev = Some e ->
     outcome r = Returned (ResponseError e) /\
     (exists pre, trace r = pre ++ [ev]) /\
     count is_masking (trace r) = 0).
Proof.
  split; intros ev e r Hin Hsync Herr; subst r; revert Hin.
  - rewrite run_GetMachines.
    destruct (handle env (object_GetMachines _) w) as [[machines err] w1].
    cbn [fst snd].
    destruct err as [e1|].
    { cbn [trace]. intros [<-|[]]. discriminate Hsync. }
    assert (Forall (fun ev0 => is_sync ev0 = false)
              (Ev (object_GetMachines (Get "owner" (Input c))) (machines, None)
               :: classification env machines)) as Hpre.
    { constructor; [reflexivity|apply classification_no_sync]. }
    destruct (anyNonDefault env machines).
    + destruct (handle env (object_SyncMachinesCloud _) w1) as [[affected err] w2].
      cbn [fst snd]. destruct err as [e2|]; cbn [trace outcome prepend]; intros Hin.
      * apply in_app_or in Hin. destruct Hin as [Hin|[<-|[]]].
        { exfalso. exact (sync_not_among _ _ Hpre Hin Hsync). }
        cbn in Herr. injection Herr as <-.
        split; [reflexivity|]. split; [eexists; reflexivity|].
        rewrite count_app. rewrite (count_none is_masking).
        { reflexivity. }
        constructor; [reflexivity|].
        eapply Forall_impl; [|apply Forall_classification].
        intros [X c0 x]; destruct c0; cbn; congruence.
      * exfalso. apply in_app_or in Hin. destruct Hin as [Hin|Hin].
        { apply in_app_or in Hin. destruct Hin as [Hin|[<-|[]]].
          - exact (sync_not_among _ _ Hpre Hin Hsync).
          - discriminate Herr. }
        exact (sync_not_among _ _ (respond_no_sync c w2) Hin Hsync).
    + cbn [trace prepend]. intros Hin. exfalso.
      apply in_app_or in Hin. destruct Hin as [Hin|Hin].
      * exact (sync_not_among _ _ Hpre Hin Hsync).
      * exact (sync_not_among _ _ (respond_no_sync c w1) Hin Hsync).
  - rewrite run_GetMachine.
    destruct (handle env (object_GetMachine _) w) as [[machine err] w1].
    cbn [fst snd].
    destruct err as [e1|].
    { cbn [trace]. intros [<-|[]]. discriminate Hsync. }
    destruct (IsDefault env machine).
    + destruct (handle env (object_GetMaskedMachine machine []) w1) as [masked w2].
      cbn [trace app]. intros [<-|[<-|[<-|[]]]]; discriminate Hsync.
    + destruct (handle env (object_SyncMachinesCloud _) w1) as [[affected err] w2].
      cbn [fst snd]. destruct err as [e2|].
      * cbn [trace outcome app]. intros [<-|[<-|[<-|[]]]]; try discriminate Hsync.
        cbn in Herr. injection Herr as <-.
        split; [reflexivity|]. split; [|reflexivity].
        exists [Ev (object_GetMachine (Get "id" (Input c))) (machine, None);
                Ev (Machine_IsDefault machine) false].
        reflexivity.
      * destruct (handle env (object_GetMachine _) w2) as [refetched w3].
        destruct (handle env _ w3) as [masked w4].
        cbn [trace app]. intros [<-|[<-|[<-|[<-|[<-|[]]]]]]; try discriminate Hsync.
        discriminate Herr.
Qed.

(** C5.  A list request without pagination never panics.  When it answers
    with data, the data is one list of machines: what masking returned for
    exactly the pair that the store handed back when the owner's machines
    were fetched a second time, after the first fetch, the classification and
    the synchronisation (if one was started); the handler drops or adds
    nothing.  Otherwise it answers with the error of the last call it
    made. *)
Theorem GetMachines_unpaginated_refetch (c : ApiController) (w : W) :
  unpaginated c = true ->
  let owner := Get "owner" (Input c) in
  let r := run env (GetMachines Offset Nums c) w in
  match outcome r with
  | Returned (ResponseOk data) =>
      exists first sync refetched masked,
        trace r =
          Ev (object_GetMachines owner) (first, None) :: classification env first ++
          sync ++
          [Ev (object_GetMachines owner) refetched;
           Ev (object_GetMaskedMachines (fst refetched) [snd refetched]) (masked, None)] /\
        (sync = [] \/
         exists affected, sync = [Ev (object_SyncMachinesCloud owner) (affected, None)]) /\
        data = [VMachines masked]
  | Returned (ResponseError e) =>
      exists pre ev, trace r = pre ++ [ev] /\ error_of ev = Some e
  | Returned (ServeJSON _) => False
  | Panicked _ => False
  end.
Proof.
  intros Hun owner r. subst r.
  rewrite run_GetMachines. fold owner.
  destruct (handle env (object_GetMachines owner) w) as [[first err] w1].
  cbn [fst snd]. destruct err as [e|].
  { cbn [outcome trace]. exists [], (Ev (object_GetMachines owner) (first, Some e)).
    split; reflexivity. }
  destruct (anyNonDefault env first).
  - destruct (handle env (object_SyncMachinesCloud owner) w1) as [[affected err] w2].
    cbn [fst snd]. destruct err as [e|].
    { cbn [outcome trace].
      exists (Ev (object_GetMachines owner) (first, None) :: classification env first),
             (Ev (object_SyncMachinesCloud owner) (affected, Some e)).
      split; reflexivity. }
    rewrite (run_respond_unpaginated c w2 Hun). fold owner.
    destruct (handle env (object_GetMachines owner) w2) as [refetched w3].
    destruct (handle env _ w3) as [[masked err] w4].
    cbn [fst snd outcome trace prepend]. destruct err as [e|].
    + exists ((Ev (object_GetMachines owner) (first, None) :: classification env first) ++
              [Ev (object_SyncMachinesCloud owner) (affected, None);
               Ev (object_GetMachines owner) refetched]),
             (Ev (object_GetMaskedMachines (fst refetched) [snd refetched]) (masked, Some e)).
      split; [|reflexivity]. rewrite <- !app_assoc. reflexivity.
    + exists first, [Ev (object_SyncMachinesCloud owner) (affected, None)], refetched, masked.
      split; [|split].
      * cbn. rewrite <- !app_assoc. reflexivity.
      * right. exists affected. reflexivity.
      * reflexivity.
  - rewrite (run_respond_unpaginated c w1 Hun). fold owner.
    destruct (handle env (object_GetMachines owner) w1) as [refetched w3].
    destruct (handle env _ w3) as [[masked err] w4].
    cbn [fst snd outcome trace prepend]. destruct err as [e|].
    + exists ((Ev (object_GetMachines owner) (first, None) :: classification env first) ++
              [Ev (object_GetMachines owner) refetched]),
             (Ev (object_GetMaskedMachines (fst refetched) [snd refetched]) (masked, Some e)).
      split; [|reflexivity]. rewrite <- !app_assoc. reflexivity.
    + exists first, [], refetched, masked.
      split; [|split].
      * reflexivity.
      * left. reflexivity.
      * reflexivity.
Qed.

(** C9.  Two list requests without pagination for the same owner, run from
    the same state of the world, run alike whatever their field, value,
    sortField and sortOrder are: same response, same calls, same final
    state. *)
Theorem unpaginated_ignores_filter (c1 c2 : ApiController) (w : W) :
  Get "owner" (Input c1) = Get "owner" (Input c2) ->
  unpaginated c1 = true ->
  unpaginated c2 = true ->
  run env (GetMachines Offset Nums c1) w = run env (GetMachines Offset Nums c2) w.
Proof.
  intros Howner H1 H2.
  rewrite !run_GetMachines. rewrite <- Howner.
  destruct (handle env (object_GetMachines _) w) as [[first err] w1].
  cbn [fst snd]. destruct err as [e|]; [reflexivity|].
  destruct (anyNonDefault env first).
  - destruct (handle env (object_SyncMachinesCloud _) w1) as [[affected err] w2].
    cbn [fst snd]. destruct err as [e|]; [reflexivity|].
    rewrite (run_respond_unpaginated c1 w2 H1), (run_respond_unpaginated c2 w2 H2).
    rewrite <- Howner. reflexivity.
  - rewrite (run_respond_unpaginated c1 w1 H1), (run_respond_unpaginated c2 w1 H2).
    rewrite <- Howner. reflexivity.
Qed.

(** C10.  A list request begins with the owner-wide fetch.  When that fetch
    fails, the response is its error and the fetch is the only call of the
    run.  When it succeeds, the handler classifies the fetched machines and
    then starts a synchronisation exactly when one of them is not default;
    the call that fetches them is given the owner alone, so requests for one
    owner start equally many synchronisations whatever filter they carry. *)
Theorem GetMachines_fetch_error_and_gate (c : ApiController) (w : W) :
  let owner := Get "owner" (Input c) in
  let fetched := fst (handle env (object_GetMachines owner) w) in
  let r := run env (GetMachines Offset Nums c) w in
  (forall e, snd fetched = Some e ->
     outcome r = Returned (ResponseError e) /\
     trace r = [Ev (object_GetMachines owner) fetched]) /\
  (snd fetched = None ->
     exists rest,
       trace r = Ev (object_GetMachines owner) fetched ::
                 classification env (fst fetched) ++ rest /\
       if anyNonDefault env (fst fetched)
       then exists synced rest',
              rest = Ev (object_SyncMachinesCloud owner) synced :: rest' /\
              Forall (fun ev => is_sync ev = false) rest'
       else Forall (fun ev => is_sync ev = false) rest) /\
  (forall c', Get "owner" (Input c') = owner ->
     count is_sync (trace (run env (GetMachines Offset Nums c') w)) =
     count is_sync (trace r)).
Proof.
  intros owner fetched r. split; [|split].
  - intros e He. subst r fetched. rewrite run_GetMachines. fold owner.
    destruct (handle env (object_GetMachines owner) w) as [[first err] w1].
    cbn [fst snd] in *. subst err. split; reflexivity.
  - intros Hok. subst r fetched. rewrite run_GetMachines. fold owner.
    destruct (handle env (object_GetMachines owner) w) as [[first err] w1].
    cbn [fst snd] in *. subst err.
    destruct (anyNonDefault env first).
    + destruct (handle env (object_SyncMachinesCloud owner) w1) as [[affected err] w2].
      cbn [fst snd]. destruct err as [e|]; cbn [trace prepend].
      * exists [Ev (object_SyncMachinesCloud owner) (affected, Some e)].
        split; [reflexivity|].
        exists (affected, Some e), []. split; [reflexivity|constructor].
      * eexists. split.
        { cbn. rewrite <- app_assoc. reflexivity. }
        eexists _, _. split; [reflexivity|]. apply respond_no_sync.
    + cbn [trace prepend]. eexists. split; [reflexivity|]. apply respond_no_sync.
  - intros c' Hc'. subst r.
    destruct (GetMachines_sync_count c w) as [H1 _].
    destruct (GetMachines_sync_count c' w) as [H2 _].
    cbv zeta in H1, H2. rewrite H1, H2, Hc'. reflexivity.
Qed.

End ReadHandlers.

(** ** Pagination parameters *)

Lemma ParseInt_numeric (s : string) : numeric s = false -> ParseInt s = None.
Proof.
  unfold numeric, ParseInt. destruct s as [|a s']; [reflexivity|].
  destruct (Ascii.eqb a "-"); cbn [orb].
  - destruct s'; [reflexivity|]. destruct (digits _ 0); [discriminate|reflexivity].
  - destruct (Ascii.eqb a "+").
    + destruct s'; [reflexivity|]. destruct (digits _ 0); [discriminate|reflexivity].
    + destruct (digits _ 0); [discriminate|reflexivity].
Qed.

Section PageParameters.

Variable Offset : Paginator -> Z.
Variable Nums : Paginator -> Z.
Variable W : Type.
Variable env : Env W.

(** C7, as the code has it.  In a paginated list request (both [pageSize]
    and [p] given): when [pageSize] is no decimal integer the handler never
    answers with data: it makes no count, page or masking call and either
    stops at [util.ParseInt] with the parse error or, when the first fetch or
    the synchronisation failed before, answers with that error.  When
    [pageSize] parses, the handler raises no parse error whatever [p] is: it
    never parses [p], which it only compares with the empty string. *)
Theorem GetMachines_pageSize_parse (c : ApiController) (w : W) :
  let limit := Get "pageSize" (Input c) in
  let r := run env (GetMachines Offset Nums c) w in
  unpaginated c = false ->
  (numeric limit = false ->
     Forall (fun ev => is_page_query ev = false /\ is_masking ev = false) (trace r) /\
     match outcome r with
     | Panicked v => v = ParseIntError limit
     | Returned (ResponseError e) =>
         exists pre ev, trace r = pre ++ [ev] /\ error_of ev = Some e
     | Returned _ => False
     end) /\
  (forall k, ParseInt limit = Some k ->
     match outcome r with
     | Panicked _ => False
     | Returned _ => True
     end).
Proof.
  intros limit r Hpg. subst r.
  rewrite run_GetMachines.
  assert (forall machines,
            Forall (fun ev => is_page_query ev = false /\ is_masking ev = false)
                   (classification env machines)) as Hcls.
  { intros machines. eapply Forall_impl; [|apply Forall_classification].
    intros [X c0 x]; destruct c0; cbn; split; congruence. }
  split.
  - intros Hnum. apply ParseInt_numeric in Hnum.
    destruct (handle env (object_GetMachines _) w) as [[first err] w1].
    cbn [fst snd]. destruct err as [e|].
    { cbn [outcome trace]. split; [repeat constructor|].
      eexists [], _. split; reflexivity. }
    destruct (anyNonDefault env first).
    + destruct (handle env (object_SyncMachinesCloud _) w1) as [[affected err] w2].
      cbn [fst snd]. destruct err as [e|].
      { cbn [outcome trace]. split.
        - constructor; [split; reflexivity|].
          apply Forall_app. split; [apply Hcls|repeat constructor].
        - eexists _, _. split; reflexivity. }
      rewrite (run_respond_paginated _ _ _ _ c w2 Hpg). fold limit. rewrite Hnum.
      cbn [outcome trace prepend]. split; [|reflexivity].
      rewrite app_nil_r. constructor; [split; reflexivity|].
      apply Forall_app. split; [apply Hcls|repeat constructor].
    + rewrite (run_respond_paginated _ _ _ _ c w1 Hpg). fold limit. rewrite Hnum.
      cbn [outcome trace prepend]. split; [|reflexivity].
      rewrite app_nil_r. constructor; [split; reflexivity|apply Hcls].
  - intros k Hk.
    assert (forall w0, match outcome (run env (GetMachines_respond Offset Nums c) w0) with
                       | Panicked _ => False
                       | Returned _ => True
                       end) as Hrest.
    { intros w0. rewrite (run_respond_paginated _ _ _ _ c w0 Hpg). fold limit. rewrite Hk.
      destruct (handle env (object_GetMachineCount _ _ _) w0) as [[n err] w1].
      cbn [fst snd]. destruct err; [exact I|].
      destruct (handle env _ w1) as [fetched w2].
      destruct (handle env _ w2) as [masked w3]. exact I. }
    destruct (handle env (object_GetMachines _) w) as [[first err] w1].
    cbn [fst snd]. destruct err as [e|]; [exact I|].
    destruct (anyNonDefault env first).
    + destruct (handle env (object_SyncMachinesCloud _) w1) as [[affected err] w2].
      cbn [fst snd]. destruct err as [e|]; [exact I|]. apply Hrest.
    + apply Hrest.
Qed.

End PageParameters.

(** ** Pagination over the reference store *)

Section PaginatedList.

Variable matches : string -> string -> string -> Machine -> bool.
Variable sortBy : string -> string -> list Machine -> list Machine.
Variable mask : Machine -> Machine.
Variable cloud : string -> list Machine -> (bool * error) * list Machine.
Variable Offset : Paginator -> Z.
Variable Nums : Paginator -> Z.

(** Sorting keeps every record. *)
Hypothesis sortBy_length :
  forall sortField sortOrder l, length (sortBy sortField sortOrder l) = length l.

(** The paginator reports the number of items it was built with. *)
Hypothesis Nums_SetPaginator :
  forall ctx per nums, Nums (SetPaginator ctx per nums) = nums.

(** C6, as the code has it.  A paginated list request with page size [k]
    over the reference store.  Let [matching] be the records that match
    owner, field and value once the synchronisation gate is passed, [N] their
    number and [offset] what the paginator built from [k] and [N] computes.
    Unless the synchronisation failed, the response carries [N] as its second
    datum and, as its first, the masked records of the page fetched with
    [offset], limit [k], the filter and the sort parameters; when [0 <= k]
    and [0 <= offset <= N] that page holds [min k (N - offset)] records. *)
Theorem GetMachines_paginated_page (c : ApiController) (db : list Machine) (k : Z) :
  let env := storeEnv matches sortBy mask cloud in
  let owner := Get "owner" (Input c) in
  let field := Get "field" (Input c) in
  let value := Get "value" (Input c) in
  let sortField := Get "sortField" (Input c) in
  let sortOrder := Get "sortOrder" (Input c) in
  let r := run env (GetMachines Offset Nums c) db in
  let scope := map Some (filter (in_scope owner) db) in
  let gate := anyNonDefault env scope in
  let db' := if gate then snd (cloud owner db) else db in
  let sync_error := if gate then snd (fst (cloud owner db)) else None in
  let matching := filter (matches owner field value) db' in
  let N := Z.of_nat (length matching) in
  let offset := Offset (SetPaginator (Ctx c) k N) in
  let page := firstn (Z.to_nat k) (skipn (Z.to_nat offset)
                (sortBy sortField sortOrder matching)) in
  unpaginated c = false ->
  ParseInt (Get "pageSize" (Input c)) = Some k ->
  match sync_error with
  | Some e => outcome r = Returned (ResponseError e)
  | None =>
      outcome r = Returned (ResponseOk [VMachines (map (fun m => Some (mask m)) page);
                                        VInt N]) /\
      In (Ev (object_GetPaginationMachines owner offset k field value sortField sortOrder)
             (map Some page, None)) (trace r) /\
      ((0 <= k)%Z -> (0 <= offset <= N)%Z ->
       Z.of_nat (length (map (fun m => Some (mask m)) page)) = Z.min k (N - offset))
  end.
Proof.
  intros env owner field value sortField sortOrder r scope gate db' sync_error
         matching N offset page Hpg Hk.
  assert (length page = Nat.min (Z.to_nat k) (Z.to_nat N - Z.to_nat offset)) as Hlen.
  { subst page N. rewrite length_firstn, length_skipn, sortBy_length, Nat2Z.id.
    reflexivity. }
  assert (run env (GetMachines_respond Offset Nums c) db' =
          mkRun (Returned (ResponseOk [VMachines (map (fun m => Some (mask m)) page);
                                       VInt N]))
                [Ev (object_GetMachineCount owner field value) (N, None);
                 Ev (object_GetPaginationMachines owner offset k field value
                       sortField sortOrder) (map Some page, None);
                 Ev (object_GetMaskedMachines (map Some page) [None])
                    (map (fun m => Some (mask m)) page, None)]
                db') as Hrest.
  { rewrite (run_respond_paginated _ _ _ _ c db' Hpg). rewrite Hk.
    fold owner field value sortField sortOrder.
    cbn [env storeEnv handle storeHandle fst snd first_error].
    fold matching. fold N. rewrite Nums_SetPaginator. fold offset.
    unfold selection. fold matching. fold page.
    rewrite map_map. reflexivity. }
  subst r. rewrite run_GetMachines. fold owner.
  cbn [env storeEnv handle storeHandle fst snd]. fold scope. fold env. fold gate.
  subst sync_error db'. destruct gate.
  - destruct (cloud owner db) as [[affected err] db1]. cbn [fst snd] in *.
    destruct err as [e|]; [reflexivity|].
    rewrite Hrest. cbn [outcome trace prepend]. split; [reflexivity|]. split.
    + apply in_or_app. right. right. left. reflexivity.
    + intros Hk0 Hoff. rewrite length_map, Hlen. lia.
  - rewrite Hrest. cbn [outcome trace prepend]. split; [reflexivity|]. split.
    + apply in_or_app. right. right. left. reflexivity.
    + intros Hk0 Hoff. rewrite length_map, Hlen. lia.
Qed.

End PaginatedList.

(** ** The write path *)

Section Mutations.

Variable json_Unmarshal : string -> Machine * error.
Variable W : Type.
Variable env : Env W.

(** C8.  Add, update and delete alike: when the request body does not decode,
    the response is the decode error, no call is made and the world is left
    as it was; when it decodes, the one call of the run is the store
    operation on the decoded record, whose result is wrapped and served.  No
    run of the three contains a masking, a classification or a
    synchronisation call. *)
Theorem mutations_raw_write_path (c : ApiController) (w : W) :
  let decoded := json_Unmarshal (RequestBody (Ctx c)) in
  let machine := Some (fst decoded) in
  raw_write_path decoded (object_AddMachine machine) w
                 (run env (AddMachine json_Unmarshal c) w) /\
  raw_write_path decoded (object_UpdateMachine (Get "id" (Input c)) machine) w
                 (run env (UpdateMachine json_Unmarshal c) w) /\
  raw_write_path decoded (object_DeleteMachine machine) w
                 (run env (DeleteMachine json_Unmarshal c) w).
Proof.
  intros decoded machine. subst machine decoded.
  unfold raw_write_path, AddMachine, UpdateMachine, DeleteMachine.
  destruct (json_Unmarshal (RequestBody (Ctx c))) as [m err].
  cbn [fst snd]. destruct err as [e|].
  - cbn [run outcome trace final].
    repeat match goal with
           | |- _ /\ _ => split
           | |- forall e', Some _ = Some e' -> _ =>
               let He := fresh "He" in intros ? He; injection He as <-
           | |- Some _ = None -> _ => intros ?; discriminate
           | |- _ = _ => reflexivity
           end.
  - cbn [bind call run perform].
    destruct (handle env (object_AddMachine (Some m)) w) as [[a1 e1] w1].
    destruct (handle env (object_UpdateMachine _ (Some m)) w) as [[a2 e2] w2].
    destruct (handle env (object_DeleteMachine (Some m)) w) as [[a3 e3] w3].
    cbn [run outcome trace final].
    repeat match goal with
           | |- _ /\ _ => split
           | |- forall e, None = Some e -> _ => intros ? ?; discriminate
           | |- None = None -> _ => intros _; eexists; split; reflexivity
           | |- _ = _ => reflexivity
           end.
Qed.

End Mutations.

(** ** The scenario of alice's two machines, run through the theorems *)

Lemma demo_sortBy_length (sortField sortOrder : string) (l : list Machine) :
  length (demo_sortBy sortField sortOrder l) = length l.
Proof.
  unfold demo_sortBy. destruct (sortOrder =? "descend"); [apply length_rev|reflexivity].
Qed.

(** Listing alice's machines starts one synchronisation, since [web_1] is not
    a default machine. *)
Lemma GetMachines_sync_gate_witness :
  count is_sync (trace (run demoEnv (GetMachines demo_Offset demo_Nums alice_list) aliceStore)) = 1.
Proof.
  destruct (GetMachines_sync_gate demo_Offset demo_Nums _ demoEnv alice_list aliceStore)
    as (_ & H & _).
  destruct (H eq_refl) as [[_ Hone] _].
  apply Hone. exists (Some web_1). split; [right; left; reflexivity|reflexivity].
Defined.

(** Getting [web_1] starts one synchronisation for alice; getting the default
    [machine_1] starts none. *)
Lemma GetMachine_sync_rule_witness :
  handle demoEnv (object_GetMachine "alice/web_1") aliceStore = ((Some web_1, None), aliceStore) /\
  fst (demo_GetOwnerAndNameFromId "alice/web_1") = Owner web_1 /\
  count (is_sync_for "alice")
        (trace (run demoEnv (GetMachine demo_GetOwnerAndNameFromId get_web_1) aliceStore)) = 1 /\
  count is_sync
        (trace (run demoEnv (GetMachine demo_GetOwnerAndNameFromId get_machine_1) aliceStore)) = 0.
Proof.
  split; [reflexivity|]. split; [reflexivity|]. split.
  - exact (proj1 (proj2 (GetMachine_sync_rule demo_GetOwnerAndNameFromId _ demoEnv
                           get_web_1 aliceStore aliceStore web_1 eq_refl eq_refl))).
  - exact (proj1 (GetMachine_sync_rule demo_GetOwnerAndNameFromId _ demoEnv
                    get_machine_1 aliceStore aliceStore machine_1 eq_refl eq_refl)).
Defined.

(** With the cloud down, both read requests answer with its error. *)
Lemma sync_error_aborts_witness :
  outcome (run downEnv (GetMachines demo_Offset demo_Nums alice_list) aliceStore) =
    Returned (ResponseError "cloud unreachable") /\
  outcome (run downEnv (GetMachine demo_GetOwnerAndNameFromId get_web_1) aliceStore) =
    Returned (ResponseError "cloud unreachable").
Proof.
  destruct (sync_error_aborts demo_Offset demo_Nums demo_GetOwnerAndNameFromId _ downEnv
              alice_list aliceStore) as [Hlist _].
  destruct (sync_error_aborts demo_Offset demo_Nums demo_GetOwnerAndNameFromId _ downEnv
              get_web_1 aliceStore) as [_ Hone].
  split.
  - apply (Hlist (Ev (object_SyncMachinesCloud "alice") (false, Some "cloud unreachable"))).
    + do 3 right. left. reflexivity.
    + reflexivity.
    + reflexivity.
  - apply (Hone (Ev (object_SyncMachinesCloud "alice") (false, Some "cloud unreachable"))).
    + do 2 right. left. reflexivity.
    + reflexivity.
    + reflexivity.
Defined.

(** The unpaginated list of alice's machines is the masked second fetch:
    [web_1] goes out as the cloud reported it, not as first fetched. *)
Lemma GetMachines_unpaginated_refetch_witness :
  unpaginated alice_list = true /\
  exists first refetched masked,
    In (Ev (object_GetMachines "alice") (first, None))
       (trace (run demoEnv (GetMachines demo_Offset demo_Nums alice_list) aliceStore)) /\
    In (Ev (object_GetMaskedMachines (fst refetched) [snd refetched]) (masked, None))
       (trace (run demoEnv (GetMachines demo_Offset demo_Nums alice_list) aliceStore)) /\
    [VMachines [Some machine_1; Some web_1_masked]] = [VMachines masked].
Proof.
  split; [reflexivity|].
  pose proof (GetMachines_unpaginated_refetch demo_Offset demo_Nums _ demoEnv
                alice_list aliceStore eq_refl) as H.
  cbv zeta in H.
  change (outcome (run demoEnv (GetMachines demo_Offset demo_Nums alice_list) aliceStore))
    with (Returned (ResponseOk [VMachines [Some machine_1; Some web_1_masked]])) in H.
  cbv beta iota in H.
  destruct H as (first & sync & refetched & masked & Htrace & _ & Hdata).
  exists first, refetched, masked. rewrite Htrace. split; [|split].
  - left. reflexivity.
  - right. apply in_or_app. right. apply in_or_app. right. right. left. reflexivity.
  - exact Hdata.
Defined.

(** Filter and sort parameters leave the unpaginated list as it is. *)
Lemma unpaginated_ignores_filter_witness :
  run demoEnv (GetMachines demo_Offset demo_Nums alice_list) aliceStore =
  run demoEnv (GetMachines demo_Offset demo_Nums alice_list_filtered) aliceStore.
Proof.
  apply unpaginated_ignores_filter; reflexivity.
Defined.

(** With the store down, a list request answers with the error of the fetch
    and calls nothing else. *)
Lemma GetMachines_fetch_error_witness :
  outcome (run outageEnv (GetMachines demo_Offset demo_Nums alice_list) tt) =
    Returned (ResponseError "database is down") /\
  trace (run outageEnv (GetMachines demo_Offset demo_Nums alice_list) tt) =
    [Ev (object_GetMachines "alice") ([], Some "database is down")].
Proof.
  exact (proj1 (GetMachines_fetch_error_and_gate demo_Offset demo_Nums _ outageEnv
                  alice_list tt) "database is down" eq_refl).
Defined.

(** The page size "abc" stops the request at [util.ParseInt]. *)
Lemma GetMachines_pageSize_parse_witness :
  unpaginated alice_pageSize_abc = false /\
  numeric "abc" = false /\
  match outcome (run demoEnv (GetMachines demo_Offset demo_Nums alice_pageSize_abc) aliceStore) with
  | Panicked v => v = ParseIntError "abc"
  | Returned (ResponseError e) =>
      exists pre ev,
        trace (run demoEnv (GetMachines demo_Offset demo_Nums alice_pageSize_abc) aliceStore) =
          pre ++ [ev] /\ error_of ev = Some e
  | Returned _ => False
  end.
Proof.
  split; [reflexivity|]. split; [reflexivity|].
  exact (proj2 (proj1 (GetMachines_pageSize_parse demo_Offset demo_Nums _ demoEnv
                         alice_pageSize_abc aliceStore eq_refl) eq_refl)).
Defined.

(** The page "abc" is accepted: the request answers with the first page and
    the total, as if page 1 had been asked for. *)
Lemma GetMachines_page_not_parsed :
  Get "p" (Input alice_page_abc) = "abc" /\
  numeric "abc" = false /\
  unpaginated alice_page_abc = false /\
  outcome (run demoEnv (GetMachines demo_Offset demo_Nums alice_page_abc) aliceStore) =
    Returned (ResponseOk [VMachines [Some machine_1; Some web_1_masked]; VInt 2]).
Proof. repeat split. Qed.

(** Page 2 of alice's machines at one machine per page: one record of two,
    from offset 1. *)
Lemma GetMachines_paginated_page_witness :
  unpaginated alice_page_2 = false /\
  ParseInt (Get "pageSize" (Input alice_page_2)) = Some 1%Z /\
  outcome (run demoEnv (GetMachines demo_Offset demo_Nums alice_page_2) aliceStore) =
    Returned (ResponseOk [VMachines [Some web_1_masked]; VInt 2]) /\
  Z.of_nat (length [Some web_1_masked]) =
    Z.min 1 (2 - demo_Offset (SetPaginator (Ctx alice_page_2) 1 2)).
Proof.
  split; [reflexivity|]. split; [reflexivity|].
  destruct (GetMachines_paginated_page demo_matches demo_sortBy demo_mask demo_cloud
              demo_Offset demo_Nums demo_sortBy_length (fun _ _ _ => eq_refl)
              alice_page_2 aliceStore 1%Z eq_refl eq_refl) as (Hout & _ & Hlen).
  split; [exact Hout|]. apply Hlen.
  - discriminate.
  - split; discriminate.
Defined.

(** The page size "-1" parses and the request is answered with data: an
    empty page and the total 2, where [min k (N - offset)] is -1. *)
Lemma GetMachines_negative_pageSize :
  unpaginated alice_pageSize_minus_1 = false /\
  ParseInt (Get "pageSize" (Input alice_pageSize_minus_1)) = Some (-1)%Z /\
  outcome (run demoEnv (GetMachines demo_Offset demo_Nums alice_pageSize_minus_1)
               aliceStore) =
    Returned (ResponseOk [VMachines []; VInt 2]) /\
  Z.of_nat (length (@nil MachinePtr)) = 0%Z /\
  Z.min (-1) (2 - demo_Offset (SetPaginator (Ctx alice_pageSize_minus_1) (-1) 2)) = (-1)%Z.
Proof. repeat split. Qed.

(** An empty body is refused before the store is touched; a body that decodes
    reaches the store, and only the store. *)
Lemma mutations_raw_write_path_witness :
  run demoEnv (AddMachine demo_Unmarshal (post "")) aliceStore =
    mkRun (Returned (ResponseError "unexpected end of JSON input")) [] aliceStore /\
  count is_store_write (trace (run demoEnv (DeleteMachine demo_Unmarshal (post "alice/web_1"))
                                   aliceStore)) = 1.
Proof.
  destruct (mutations_raw_write_path demo_Unmarshal _ demoEnv (post "") aliceStore)
    as ((Herr & _) & _ & _).
  destruct (Herr "unexpected end of JSON input" eq_refl) as (Hout & Htrace & Hfinal).
  split.
  - destruct (run demoEnv (AddMachine demo_Unmarshal (post "")) aliceStore) as [o t f].
    cbn in Hout, Htrace, Hfinal. rewrite Hout, Htrace, Hfinal. reflexivity.
  - destruct (mutations_raw_write_path demo_Unmarshal _ demoEnv (post "alice/web_1") aliceStore)
      as (_ & _ & (_ & _ & Hwrites & _)).
    rewrite Hwrites. reflexivity.
Defined.

(** ** Further properties of the read handlers *)

Lemma count_classification_none {W : Type} (env : Env W) (f : Event -> bool)
    (machines : list MachinePtr) :
  (forall m b, f (Ev (Machine_IsDefault m) b) = false) ->
  count f (classification env machines) = 0.
Proof.
  intros Hf. apply count_none.
  eapply Forall_impl; [|apply Forall_classification].
  intros [X c x]. destruct c; cbn; try discriminate. intros _. apply Hf.
Qed.

Lemma classification_prefix {W : Type} (env : Env W) (pre post : list MachinePtr)
    (m : MachinePtr) :
  (forall x, In x pre -> IsDefault env x = true) ->
  IsDefault env m = false ->
  classification env (pre ++ m :: post) = map (classified env) (pre ++ [m]).
Proof.
  intros Hpre Hm. induction pre as [|x pre IH]; cbn.
  - unfold classified. rewrite Hm. reflexivity.
  - pose proof (Hpre x (or_introl eq_refl)) as Hx. unfold classified at 1.
    destruct (IsDefault env x); [|discriminate]. f_equal.
    apply IH. intros y Hy. apply Hpre. right. exact Hy.
Qed.

Lemma classification_all {W : Type} (env : Env W) (machines : list MachinePtr) :
  (forall x, In x machines -> IsDefault env x = true) ->
  classification env machines = map (classified env) machines.
Proof.
  intros Hall. induction machines as [|x rest IH]; cbn.
  - reflexivity.
  - pose proof (Hall x (or_introl eq_refl)) as Hx. unfold classified at 1.
    destruct (IsDefault env x); [|discriminate]. f_equal.
    apply IH. intros y Hy. apply Hall. right. exact Hy.
Qed.

Lemma filter_classification {W : Type} (env : Env W) (machines : list MachinePtr) :
  filter is_classification (classification env machines) = classification env machines.
Proof.
  induction machines as [|x rest IH]; cbn.
  - reflexivity.
  - destruct (IsDefault env x); [rewrite IH|]; reflexivity.
Qed.

Lemma filter_none (f : Event -> bool) (tr : list Event) :
  Forall (fun ev => f ev = false) tr -> filter f tr = [].
Proof.
  induction 1 as [|ev tr Hev _ IH]; cbn.
  - reflexivity.
  - rewrite Hev. exact IH.
Qed.

Lemma event_not_in_split (f : Event -> bool) (tr a : list Event) (m : Event)
    (b : list Event) :
  Forall (fun x => f x = false) tr -> tr = a ++ m :: b -> f m = true -> False.
Proof.
  intros Hall -> Hm. rewrite Forall_forall in Hall.
  assert (f m = false) by (apply Hall; apply in_or_app; right; left; reflexivity).
  congruence.
Qed.

(** A trace with one event that satisfies [f] splits at that event in one
    way only. *)
Lemma split_at_unique (f : Event -> bool) (a b pre post : list Event) (s ev : Event) :
  Forall (fun x => f x = false) a ->
  Forall (fun x => f x = false) b ->
  f ev = true ->
  a ++ s :: b = pre ++ ev :: post ->
  pre = a /\ ev = s /\ post = b.
Proof.
  intros Ha Hb Hev. revert pre. induction Ha as [|x a Hx Ha IH]; intros pre Heq.
  - destruct pre as [|y pre]; cbn in Heq.
    + injection Heq as -> ->. repeat split.
    + injection Heq as -> ->. exfalso.
      rewrite Forall_forall in Hb.
      assert (f ev = false) by (apply Hb; apply in_or_app; right; left; reflexivity).
      congruence.
  - destruct pre as [|y pre]; cbn in Heq.
    + injection Heq as <- _. congruence.
    + injection Heq as <- Heq. destruct (IH pre Heq) as (-> & -> & ->).
      repeat split.
Qed.

Lemma gate_event_kind (ev : Event) :
  is_gate ev = true ->
  is_masking ev = false /\ is_store_write ev = false /\
  is_count_query ev = false /\ is_page_fetch ev = false.
Proof. destruct ev as [X c x]. destruct c; cbn; intros H; repeat split; congruence. Qed.

Lemma Forall_gate_classification {W : Type} (env : Env W) (machines : list MachinePtr) :
  Forall (fun ev => is_gate ev = true) (classification env machines).
Proof.
  eapply Forall_impl; [|apply Forall_classification].
  intros [X c x]. destruct c; cbn; congruence.
Qed.

Lemma count_gate (f : Event -> bool) (gate : list Event) :
  (forall ev, is_gate ev = true -> f ev = false) ->
  Forall (fun ev => is_gate ev = true) gate ->
  count f gate = 0.
Proof.
  intros Hf Hgate. apply count_none.
  eapply Forall_impl; [|exact Hgate]. exact Hf.
Qed.

Lemma count_zero_Forall (f : Event -> bool) (tr : list Event) :
  count f tr = 0 -> Forall (fun ev => f ev = false) tr.
Proof.
  unfold count. induction tr as [|ev tr IH]; cbn; intros H.
  - constructor.
  - destruct (f ev) eqn:E; [discriminate|]. constructor; [exact E|apply IH; exact H].
Qed.

Section FurtherReads.

Variable Offset : Paginator -> Z.
Variable Nums : Paginator -> Z.
Variable GetOwnerAndNameFromId : string -> string * string.
Variable W : Type.
Variable env : Env W.

(** A list request either ends at the gate, with the error of its last
    call, or passes the gate and goes on with the response of lines 65-89. *)
Lemma GetMachines_gate (c : ApiController) (w : W) :
  let r := run env (GetMachines Offset Nums c) w in
  exists gate,
    Forall (fun ev => is_gate ev = true) gate /\
    ((exists pre ev e,
        gate = pre ++ [ev] /\ error_of ev = Some e /\
        trace r = gate /\ outcome r = Returned (ResponseError e)) \/
     (exists w', r = prepend gate (run env (GetMachines_respond Offset Nums c) w'))).
Proof.
  intros r. subst r. rewrite run_GetMachines.
  destruct (handle env (object_GetMachines _) w) as [[first err] w1].
  cbn [fst snd]. destruct err as [e|].
  { exists [Ev (object_GetMachines (Get "owner" (Input c))) (first, Some e)].
    split; [repeat constructor|]. left. eexists [], _, e.
    repeat split; reflexivity. }
  assert (Forall (fun ev => is_gate ev = true)
            (Ev (object_GetMachines (Get "owner" (Input c))) (first, None)
             :: classification env first)) as Hpre.
  { constructor; [reflexivity|apply Forall_gate_classification]. }
  destruct (anyNonDefault env first).
  - destruct (handle env (object_SyncMachinesCloud _) w1) as [[affected err] w2].
    cbn [fst snd].
    assert (Forall (fun ev => is_gate ev = true)
              ((Ev (object_GetMachines (Get "owner" (Input c))) (first, None)
                :: classification env first) ++
               [Ev (object_SyncMachinesCloud (Get "owner" (Input c))) (affected, err)]))
      as Hgate.
    { apply Forall_app. split; [exact Hpre|repeat constructor]. }
    destruct err as [e|].
    + eexists. split; [exact Hgate|]. left. eexists _, _, e. repeat split; reflexivity.
    + eexists. split; [exact Hgate|]. right. exists w2. reflexivity.
  - eexists. split; [exact Hpre|]. right. exists w1. reflexivity.
Qed.

(** What the response part of a list request calls: nothing of the gate but
    the fetch, and no write. *)
Lemma respond_calls (c : ApiController) (w : W) :
  let tr := trace (run env (GetMachines_respond Offset Nums c) w) in
  count is_classification tr = 0 /\ count is_store_write tr = 0 /\
  count is_masking tr <= 1.
Proof.
  intros tr. subst tr. destruct (unpaginated c) eqn:Hc.
  - rewrite (run_respond_unpaginated _ _ _ _ c w Hc).
    destruct (handle env (object_GetMachines _) w) as [fetched w1].
    destruct (handle env _ w1) as [masked w2].
    cbn. repeat split; lia.
  - rewrite (run_respond_paginated _ _ _ _ c w Hc).
    destruct (ParseInt _); [|cbn; repeat split; lia].
    destruct (handle env (object_GetMachineCount _ _ _) w) as [[n err] w1].
    cbn [snd fst]. destruct err; [cbn; repeat split; lia|].
    destruct (handle env _ w1) as [fetched w2].
    destruct (handle env _ w2) as [masked w3].
    cbn. repeat split; lia.
Qed.

(** X1.  When the store fails to fetch the record of a get-one request, the
    response is the error of the fetch, the fetch is the only call of the
    run (nothing is classified, synchronised or masked), and the world is
    as the fetch left it. *)
Theorem GetMachine_fetch_error (c : ApiController) (w : W) (e : string) :
  let id := Get "id" (Input c) in
  let fetched := handle env (object_GetMachine id) w in
  let r := run env (GetMachine GetOwnerAndNameFromId c) w in
  snd (fst fetched) = Some e ->
  outcome r = Returned (ResponseError e) /\
  trace r = [Ev (object_GetMachine id) (fst fetched)] /\
  final r = snd fetched.
Proof.
  intros id fetched r He. subst r fetched. rewrite run_GetMachine. fold id.
  destruct (handle env (object_GetMachine id) w) as [[machine err] w1].
  cbn [fst snd] in *. subst err. repeat split.
Qed.

(** X2.  The classifier loop of a list request stops at the first machine
    that is not default: when the fetched list is [pre ++ m :: post] with
    all of [pre] default and [m] not, the classifier calls of the run are
    those on [pre] and on [m], in order, and no machine of [post] is
    classified; when every fetched machine is default, each is classified
    once, in order. *)
Theorem GetMachines_classifies_prefix (c : ApiController) (w w1 : W)
    (machines : list MachinePtr) :
  let owner := Get "owner" (Input c) in
  let r := run env (GetMachines Offset Nums c) w in
  handle env (object_GetMachines owner) w = ((machines, None), w1) ->
  (forall pre m post,
     machines = pre ++ m :: post ->
     (forall x, In x pre -> IsDefault env x = true) ->
     IsDefault env m = false ->
     filter is_classification (trace r) = map (classified env) (pre ++ [m])) /\
  ((forall x, In x machines -> IsDefault env x = true) ->
   filter is_classification (trace r) = map (classified env) machines).
Proof.
  intros owner r Hfetch.
  assert (filter is_classification (trace r) = classification env machines) as Hcls.
  { subst r. rewrite run_GetMachines. fold owner. rewrite Hfetch. cbn [fst snd].
    assert (forall w', filter is_classification
                         (trace (run env (GetMachines_respond Offset Nums c) w')) = [])
      as Hrest.
    { intros w'. apply length_zero_iff_nil. apply (respond_calls c w'). }
    destruct (anyNonDefault env machines).
    - destruct (handle env (object_SyncMachinesCloud owner) w1) as [[affected err] w2].
      cbn [fst snd]. destruct err as [e|]; cbn [trace prepend].
      + cbn [app filter is_classification]. rewrite filter_app, filter_classification.
        cbn. rewrite ?app_nil_r. reflexivity.
      + cbn [app filter is_classification].
        rewrite !filter_app, filter_classification, Hrest.
        cbn. rewrite ?app_nil_r. reflexivity.
    - cbn [trace prepend app filter is_classification].
      rewrite filter_app, filter_classification, Hrest. rewrite ?app_nil_r. reflexivity. }
  rewrite Hcls. split.
  - intros pre m post -> Hpre Hm. apply classification_prefix; assumption.
  - apply classification_all.
Qed.

(** X4.  A read request, list or get-one, never calls add, update or delete
    on the store, starts at most one synchronisation and makes at most one
    masking call. *)
Theorem read_requests_frame (c : ApiController) (w : W) :
  let rl := trace (run env (GetMachines Offset Nums c) w) in
  let rg := trace (run env (GetMachine GetOwnerAndNameFromId c) w) in
  (count is_store_write rl = 0 /\ count is_sync rl <= 1 /\ count is_masking rl <= 1) /\
  (count is_store_write rg = 0 /\ count is_sync rg <= 1 /\ count is_masking rg <= 1).
Proof.
  intros rl rg. split.
  - subst rl rg.
    assert (count is_sync (trace (run env (GetMachines Offset Nums c) w)) <= 1) as Hsync.
    { destruct (GetMachines_sync_count Offset Nums W env c w) as [H _].
      cbv zeta in H. rewrite H.
      destruct (snd (fst (handle env (object_GetMachines (Get "owner" (Input c))) w)));
        [lia|].
      destruct (anyNonDefault env _); lia. }
    destruct (GetMachines_gate c w) as (gate & Hgate & H).
    assert (count is_store_write gate = 0) as Hgw.
    { apply count_gate; [|exact Hgate].
      intros ev0 H0. apply gate_event_kind in H0. tauto. }
    assert (count is_masking gate = 0) as Hgm.
    { apply count_gate; [|exact Hgate].
      intros ev0 H0. apply gate_event_kind in H0. tauto. }
    destruct H as [H|H].
    + destruct H as (pre & ev & e & _ & _ & Htr & _). rewrite Htr in *.
      repeat split; lia.
    + destruct H as [w' Hr]. rewrite Hr in *. cbn [trace prepend] in *.
      destruct (respond_calls c w') as (_ & Hw & Hm). cbv zeta in Hw, Hm.
      rewrite count_app in Hsync. rewrite !count_app. repeat split; lia.
  - subst rl rg. rewrite run_GetMachine.
    destruct (handle env (object_GetMachine _) w) as [[machine err] w1].
    cbn [fst snd]. destruct err as [e|]; [cbn; repeat split; lia|].
    destruct (IsDefault env machine).
    + destruct (handle env (object_GetMaskedMachine machine []) w1) as [masked w2].
      cbn. repeat split; lia.
    + destruct (handle env (object_SyncMachinesCloud _) w1) as [[affected err] w2].
      cbn [fst snd]. destruct err as [e|]; [cbn; repeat split; lia|].
      destruct (handle env (object_GetMachine _) w2) as [refetched w3].
      destruct (handle env _ w3) as [masked w4].
      cbn. repeat split; lia.
Qed.

(** The response part of a list request answers with data only after an
    error-free masking call, its last call. *)
Lemma respond_masked (c : ApiController) (w : W) (data : list Value) :
  let r := run env (GetMachines_respond Offset Nums c) w in
  outcome r = Returned (ResponseOk data) ->
  exists pre ev machines,
    trace r = pre ++ [ev] /\
    masked_output ev = Some (VMachines machines) /\
    ((unpaginated c = true /\ data = [VMachines machines]) \/
     (unpaginated c = false /\ exists n, data = [VMachines machines; VInt n])).
Proof.
  intros r. subst r. destruct (unpaginated c) eqn:Hc.
  - rewrite (run_respond_unpaginated _ _ _ _ c w Hc).
    destruct (handle env (object_GetMachines _) w) as [fetched w1].
    destruct (handle env _ w1) as [[masked err] w2].
    cbn [fst snd outcome trace]. destruct err as [e|]; [discriminate|].
    intros H. injection H as <-.
    eexists [_], _, masked. split; [reflexivity|]. split; [reflexivity|].
    left. split; reflexivity.
  - rewrite (run_respond_paginated _ _ _ _ c w Hc).
    destruct (ParseInt _); [|discriminate].
    destruct (handle env (object_GetMachineCount _ _ _) w) as [[n err] w1].
    cbn [snd fst]. destruct err; [discriminate|].
    destruct (handle env _ w1) as [fetched w2].
    destruct (handle env _ w2) as [[masked err] w3].
    cbn [fst snd outcome trace]. destruct err as [e|]; [discriminate|].
    intros H. injection H as <-.
    eexists [_; _], _, masked. split; [reflexivity|]. split; [reflexivity|].
    right. split; [reflexivity|]. eexists. reflexivity.
Qed.

(** X3.  No read request answers with machine data that did not come out of
    masking: whenever a list or a get-one request answers [ResponseOk], the
    last call of the run is a masking call that returned no error, and the
    machines of the response are exactly what that call returned; a list
    response carries one further datum, an integer, exactly when the request
    is paginated. *)
Theorem responses_are_masked (c : ApiController) (w : W) :
  (forall data,
     let r := run env (GetMachines Offset Nums c) w in
     outcome r = Returned (ResponseOk data) ->
     exists pre ev machines,
       trace r = pre ++ [ev] /\
       masked_output ev = Some (VMachines machines) /\
       ((unpaginated c = true /\ data = [VMachines machines]) \/
        (unpaginated c = false /\ exists n, data = [VMachines machines; VInt n]))) /\
  (forall data,
     let r := run env (GetMachine GetOwnerAndNameFromId c) w in
     outcome r = Returned (ResponseOk data) ->
     exists pre ev machine,
       trace r = pre ++ [ev] /\
       masked_output ev = Some (VMachine machine) /\
       data = [VMachine machine]).
Proof.
  split; intros data r; subst r.
  - destruct (GetMachines_gate c w) as (gate & _ & [H|H]).
    + destruct H as (pre & ev & e & _ & _ & _ & Hout). rewrite Hout. discriminate.
    + destruct H as [w' Hr]. rewrite Hr. cbn [outcome trace prepend]. intros Hok.
      destruct (respond_masked c w' data Hok) as (pre & ev & machines & Htr & Hm & Hd).
      exists (gate ++ pre), ev, machines. rewrite Htr, app_assoc. auto.
  - rewrite run_GetMachine.
    destruct (handle env (object_GetMachine _) w) as [[machine err] w1].
    cbn [fst snd]. destruct err as [e|]; [discriminate|].
    destruct (IsDefault env machine).
    + destruct (handle env (object_GetMaskedMachine machine []) w1) as [[masked err] w2].
      cbn [fst snd outcome trace app]. destruct err as [e|]; [discriminate|].
      intros H. injection H as <-.
      eexists [_; _], _, masked. repeat split.
    + destruct (handle env (object_SyncMachinesCloud _) w1) as [[affected err] w2].
      cbn [fst snd]. destruct err as [e|]; [discriminate|].
      destruct (handle env (object_GetMachine _) w2) as [refetched w3].
      destruct (handle env _ w3) as [[masked err] w4].
      cbn [fst snd outcome trace app]. destruct err as [e|]; [discriminate|].
      intros H. injection H as <-.
      eexists [_; _; _; _], _, masked. repeat split.
Qed.

(** X5.  When the count query of a paginated list request comes back with
    an error, the response is that error, the count query is the last call
    of the run, and neither the page is fetched nor anything masked. *)
Theorem count_error_aborts (c : ApiController) (w : W) (ev : Event) (e : string) :
  let r := run env (GetMachines Offset Nums c) w in
  In ev (trace r) -> is_count_query ev = true -> error_of ev = Some e ->
  outcome r = Returned (ResponseError e) /\
  (exists pre, trace r = pre ++ [ev]) /\
  count is_page_fetch (trace r) = 0 /\
  count is_masking (trace r) = 0.
Proof.
  intros r Hin Hcount Herr. subst r.
  assert (is_page_fetch ev = false /\ is_masking ev = false) as [Hev1 Hev2].
  { destruct ev as [X c0 x]. destruct c0; cbn in Hcount |- *; split; congruence. }
  destruct (GetMachines_gate c w) as (gate & Hgate & H).
  assert (forall f, (forall ev0, is_gate ev0 = true -> f ev0 = false) -> count f gate = 0)
    as Hzero by (intros f Hf; apply count_gate; assumption).
  assert (~ In ev gate) as Hnot.
  { intros Hg. rewrite Forall_forall in Hgate. apply Hgate in Hg.
    apply gate_event_kind in Hg. destruct Hg as (_ & _ & Hg & _). congruence. }
  destruct H as [H|H].
  - destruct H as (pre & ev0 & e0 & _ & _ & Htr & _). rewrite Htr in Hin. contradiction.
  - destruct H as [w' Hr]. rewrite Hr in Hin |- *. cbn [outcome trace prepend] in Hin |- *.
    apply in_app_or in Hin. destruct Hin as [Hin|Hin]; [contradiction|].
    revert Hin. destruct (unpaginated c) eqn:Hc.
    + rewrite (run_respond_unpaginated _ _ _ _ c w' Hc).
      destruct (handle env (object_GetMachines _) w') as [fetched w1].
      destruct (handle env _ w1) as [masked w2].
      cbn [trace]. intros [<-|[<-|[]]]; discriminate Hcount.
    + rewrite (run_respond_paginated _ _ _ _ c w' Hc).
      destruct (ParseInt _); [|intros []].
      destruct (handle env (object_GetMachineCount _ _ _) w') as [[n err] w1].
      cbn [snd fst]. destruct err as [e1|].
      * cbn [trace outcome]. intros [<-|[]]. cbn in Herr. injection Herr as <-.
        split; [reflexivity|]. split; [exists gate; reflexivity|].
        rewrite !count_app, !Hzero.
        { split; reflexivity. }
        { intros ev0 H0. destruct (gate_event_kind _ H0) as (? & ? & ? & ?). assumption. }
        { intros ev0 H0. destruct (gate_event_kind _ H0) as (? & ? & ? & ?). assumption. }
      * destruct (handle env _ w1) as [fetched w2].
        destruct (handle env _ w2) as [masked w3].
        cbn [trace]. intros [<-|[<-|[<-|[]]]]; try discriminate Hcount.
        discriminate Herr.
Qed.

(** X6.  A paginated list request that answers with data ends with three
    calls wired as follows: the count query and the page query carry the
    same owner, field and value; the limit of the page query is the parsed
    [pageSize]; its offset is what the paginator built from that limit and
    from the count just returned computes; masking is given exactly what the
    page query returned; and the response carries the masked machines and
    the [Nums] of that same paginator. *)
Theorem paginated_queries_agree (c : ApiController) (w : W) (data : list Value) :
  let owner := Get "owner" (Input c) in
  let field := Get "field" (Input c) in
  let value := Get "value" (Input c) in
  let sortField := Get "sortField" (Input c) in
  let sortOrder := Get "sortOrder" (Input c) in
  let r := run env (GetMachines Offset Nums c) w in
  unpaginated c = false ->
  outcome r = Returned (ResponseOk data) ->
  exists k n fetched masked pre,
    ParseInt (Get "pageSize" (Input c)) = Some k /\
    trace r =
      pre ++
      [Ev (object_GetMachineCount owner field value) (n, None);
       Ev (object_GetPaginationMachines owner (Offset (SetPaginator (Ctx c) k n)) k
             field value sortField sortOrder) fetched;
       Ev (object_GetMaskedMachines (fst fetched) [snd fetched]) (masked, None)] /\
    data = [VMachines masked; VInt (Nums (SetPaginator (Ctx c) k n))].
Proof.
  intros owner field value sortField sortOrder r Hc. subst r.
  destruct (GetMachines_gate c w) as (gate & _ & [H|H]).
  - destruct H as (pre & ev & e & _ & _ & _ & Hout). rewrite Hout. discriminate.
  - destruct H as [w' Hr]. rewrite Hr. cbn [outcome trace prepend].
    rewrite (run_respond_paginated _ _ _ _ c w' Hc).
    fold owner field value sortField sortOrder.
    destruct (ParseInt _) as [k|]; [|discriminate].
    destruct (handle env (object_GetMachineCount _ _ _) w') as [[n err] w1].
    cbn [snd fst]. destruct err; [discriminate|].
    destruct (handle env _ w1) as [fetched w2].
    destruct (handle env _ w2) as [[masked err] w3].
    cbn [fst snd outcome trace]. destruct err as [e|]; [discriminate|].
    intros H. injection H as <-.
    exists k, n, fetched, masked, gate. repeat split.
Qed.

(** X8.  For a fetched record that is not default (a nil record included),
    a get-one request synchronises the owner that
    [util.GetOwnerAndNameFromId] reads off the requested id, once, and no
    other owner, whatever owner the record itself names. *)
Theorem GetMachine_syncs_owner_of_id (c : ApiController) (w w1 : W) (machine : MachinePtr) :
  let id := Get "id" (Input c) in
  let owner := fst (GetOwnerAndNameFromId id) in
  let r := run env (GetMachine GetOwnerAndNameFromId c) w in
  handle env (object_GetMachine id) w = ((machine, None), w1) ->
  IsDefault env machine = false ->
  count (is_sync_for owner) (trace r) = 1 /\
  (forall o, o <> owner -> count (is_sync_for o) (trace r) = 0).
Proof.
  intros id owner r Hfetch Hdef. subst r.
  rewrite run_GetMachine. fold id. rewrite Hfetch. cbn [fst snd]. rewrite Hdef.
  fold owner.
  destruct (handle env (object_SyncMachinesCloud owner) w1) as [[affected err] w2].
  cbn [fst snd].
  assert (forall o, o <> owner -> (owner =? o) = false) as Hneq.
  { intros o Ho. apply String.eqb_neq. congruence. }
  destruct err as [e|].
  - cbn [trace app]. unfold count. cbn [filter is_sync_for].
    rewrite String.eqb_refl. split; [reflexivity|].
    intros o Ho. rewrite (Hneq o Ho). reflexivity.
  - destruct (handle env (object_GetMachine id) w2) as [refetched w3].
    destruct (handle env _ w3) as [masked w4].
    cbn [trace app]. unfold count. cbn [filter is_sync_for].
    rewrite String.eqb_refl. split; [reflexivity|].
    intros o Ho. rewrite (Hneq o Ho). reflexivity.
Qed.

(** What the response part of a list request masks is what the fetch just
    before the masking call returned. *)
Lemma respond_masks_fetched (c : ApiController) (w : W) (a b : list Event) (m : Event) :
  trace (run env (GetMachines_respond Offset Nums c) w) = a ++ m :: b ->
  is_masking m = true ->
  exists a' f, a = a' ++ [f] /\ masks_fetched f m.
Proof.
  intros Heq Hm. revert Heq. destruct (unpaginated c) eqn:Hc.
  - rewrite (run_respond_unpaginated _ _ _ _ c w Hc).
    destruct (handle env (object_GetMachines _) w) as [fetched w1].
    destruct (handle env _ w1) as [masked w2].
    cbn [trace]. intros Heq.
    destruct (split_at_unique is_masking
                [Ev (object_GetMachines (Get "owner" (Input c))) fetched] []
                a b _ m ltac:(repeat constructor) (Forall_nil _) Hm Heq)
      as (-> & -> & ->).
    exists [], (Ev (object_GetMachines (Get "owner" (Input c))) fetched).
    split; [reflexivity|constructor].
  - rewrite (run_respond_paginated _ _ _ _ c w Hc).
    destruct (ParseInt _) as [k|].
    2:{ cbn [trace]. intros Heq. destruct a; discriminate Heq. }
    destruct (handle env (object_GetMachineCount _ _ _) w) as [[n err] w1].
    cbn [snd fst]. destruct err as [e|].
    { cbn [trace]. intros Heq. exfalso.
      eapply (event_not_in_split is_masking); [|exact Heq|exact Hm].
      repeat constructor. }
    destruct (handle env _ w1) as [fetched w2].
    destruct (handle env _ w2) as [masked w3].
    cbn [trace]. intros Heq.
    match type of Heq with
    | [?C; ?P; ?M] = _ =>
        destruct (split_at_unique is_masking [C; P] [] a b M m
                    ltac:(repeat constructor) (Forall_nil _) Hm Heq)
          as (-> & -> & ->);
        exists [C], P
    end.
    split; [reflexivity|constructor].
Qed.

(** X7.  In a read request the synchronisation call splits the run: when
    the trace is [pre ++ ev :: post] with [ev] a synchronisation call, [pre]
    holds no masking call and no other synchronisation, [post] holds no
    classifier call and no other synchronisation, and a masking call of
    [post] comes right after a fetch of [post] and is given exactly the pair
    that fetch returned.  Classification is done on what was fetched before
    the synchronisation, masking on what is fetched after it. *)
Theorem sync_splits_run (c : ApiController) (w : W) :
  (forall pre ev post,
     trace (run env (GetMachines Offset Nums c) w) = pre ++ ev :: post ->
     is_sync ev = true ->
     Forall (fun x => is_masking x = false /\ is_sync x = false) pre /\
     Forall (fun x => is_classification x = false /\ is_sync x = false) post /\
     (forall a m b, post = a ++ m :: b -> is_masking m = true ->
        exists a' f, a = a' ++ [f] /\ masks_fetched f m)) /\
  (forall pre ev post,
     trace (run env (GetMachine GetOwnerAndNameFromId c) w) = pre ++ ev :: post ->
     is_sync ev = true ->
     Forall (fun x => is_masking x = false /\ is_sync x = false) pre /\
     Forall (fun x => is_classification x = false /\ is_sync x = false) post /\
     (forall a m b, post = a ++ m :: b -> is_masking m = true ->
        exists a' f, a = a' ++ [f] /\ masks_fetched f m)).
Proof.
  assert (forall tr pre ev post,
            Forall (fun x => is_sync x = false) tr ->
            tr = pre ++ ev :: post -> is_sync ev = true -> False) as Hnone.
  { intros tr pre ev post Hall Heq Hev.
    exact (event_not_in_split is_sync tr pre ev post Hall Heq Hev). }
  assert (forall (a b : list Event) (m : Event), [] = a ++ m :: b -> False) as Hnil.
  { intros a m b Heq. destruct a; discriminate Heq. }
  split; intros pre ev post Heq Hev; revert Heq.
  - rewrite run_GetMachines.
    destruct (handle env (object_GetMachines _) w) as [[first err] w1].
    cbn [fst snd]. destruct err as [e|].
    { cbn [trace]. intros Heq. exfalso. eapply Hnone; [|exact Heq|exact Hev].
      repeat constructor. }
    assert (Forall (fun x => is_masking x = false /\ is_sync x = false)
              (Ev (object_GetMachines (Get "owner" (Input c))) (first, None)
               :: classification env first)) as Hpre.
    { constructor; [split; reflexivity|].
      eapply Forall_impl; [|apply Forall_classification].
      intros [X c0 x]; destruct c0; cbn; split; congruence. }
    assert (Forall (fun x => is_sync x = false)
              (Ev (object_GetMachines (Get "owner" (Input c))) (first, None)
               :: classification env first)) as Hpre'.
    { eapply Forall_impl; [|exact Hpre]. intros x [_ Hx]. exact Hx. }
    assert (forall w', Forall (fun x => is_classification x = false /\ is_sync x = false)
                         (trace (run env (GetMachines_respond Offset Nums c) w')))
      as Hpost.
    { intros w'. apply Forall_and.
      - apply count_zero_Forall. apply (respond_calls c w').
      - apply respond_no_sync. }
    destruct (anyNonDefault env first).
    + destruct (handle env (object_SyncMachinesCloud _) w1) as [[affected err] w2].
      cbn [fst snd]. destruct err as [e|]; cbn [trace prepend].
      * intros Heq.
        destruct (split_at_unique is_sync _ [] pre post _ ev Hpre' (Forall_nil _) Hev Heq)
          as (-> & -> & ->).
        split; [exact Hpre|]. split; [constructor|].
        intros a m b Hab _. exfalso. exact (Hnil a b m Hab).
      * rewrite <- app_assoc. cbn [app]. intros Heq.
        destruct (split_at_unique is_sync _ _ pre post _ ev Hpre'
                    (respond_no_sync _ _ _ _ c w2) Hev Heq) as (-> & -> & ->).
        split; [exact Hpre|]. split; [apply Hpost|].
        intros a m b Hab Hm. exact (respond_masks_fetched c w2 a b m Hab Hm).
    + cbn [trace prepend]. intros Heq. exfalso.
      eapply Hnone; [|exact Heq|exact Hev].
      apply Forall_app. split; [exact Hpre'|apply respond_no_sync].
  - rewrite run_GetMachine.
    destruct (handle env (object_GetMachine _) w) as [[machine err] w1].
    cbn [fst snd]. destruct err as [e|].
    { cbn [trace]. intros Heq. exfalso. eapply Hnone; [|exact Heq|exact Hev].
      repeat constructor. }
    destruct (IsDefault env machine).
    + destruct (handle env (object_GetMaskedMachine machine []) w1) as [masked w2].
      cbn [trace app]. intros Heq. exfalso. eapply Hnone; [|exact Heq|exact Hev].
      repeat constructor.
    + destruct (handle env (object_SyncMachinesCloud _) w1) as [[affected err] w2].
      cbn [fst snd]. destruct err as [e|].
      * cbn [trace app]. intros Heq.
        destruct (split_at_unique is_sync
                    [Ev (object_GetMachine (Get "id" (Input c))) (machine, None);
                     Ev (Machine_IsDefault machine) false] [] pre post _ ev
                    ltac:(repeat constructor) (Forall_nil _) Hev Heq) as (-> & -> & ->).
        split; [repeat constructor|]. split; [constructor|].
        intros a m b Hab _. exfalso. exact (Hnil a b m Hab).
      * destruct (handle env (object_GetMachine _) w2) as [refetched w3].
        destruct (handle env _ w3) as [masked w4].
        cbn [trace app]. intros Heq.
        destruct (split_at_unique is_sync
                    [Ev (object_GetMachine (Get "id" (Input c))) (machine, None);
                     Ev (Machine_IsDefault machine) false]
                    [Ev (object_GetMachine (Get "id" (Input c))) refetched;
                     Ev (object_GetMaskedMachine (fst refetched) [snd refetched]) masked]
                    pre post _ ev
                    ltac:(repeat constructor) ltac:(repeat constructor) Hev Heq)
          as (-> & -> & ->).
        split; [repeat constructor|]. split; [repeat constructor|].
        intros a m b Hab Hm.
        destruct (split_at_unique is_masking
                    [Ev (object_GetMachine (Get "id" (Input c))) refetched] []
                    a b _ m ltac:(repeat constructor) (Forall_nil _) Hm Hab)
          as (-> & -> & ->).
        exists [], (Ev (object_GetMachine (Get "id" (Input c))) refetched).
        split; [reflexivity|constructor].
Qed.

(** X9.  The store reads behind a data response.  A list request that
    answers with data has read the store twice when it is unpaginated (the
    owner-wide list before the gate and again after it) and three times when
    it is paginated (the owner-wide list, the count and the page).  A
    get-one request that answers with data has read the store once when the
    fetched record is default and twice when it is not. *)
Theorem store_reads_of_a_response (c : ApiController) (w : W) :
  (forall data,
     let r := run env (GetMachines Offset Nums c) w in
     outcome r = Returned (ResponseOk data) ->
     count is_store_read (trace r) = if unpaginated c then 2 else 3) /\
  (forall data,
     let r := run env (GetMachine GetOwnerAndNameFromId c) w in
     let fetched := fst (handle env (object_GetMachine (Get "id" (Input c))) w) in
     outcome r = Returned (ResponseOk data) ->
     count is_store_read (trace r) = if IsDefault env (fst fetched) then 1 else 2).
Proof.
  split; intros data r; [|intros fetched; subst fetched]; subst r.
  - assert (forall w', outcome (run env (GetMachines_respond Offset Nums c) w') =
                         Returned (ResponseOk data) ->
                       count is_store_read
                         (trace (run env (GetMachines_respond Offset Nums c) w')) =
                       if unpaginated c then 1 else 2) as Hrest.
    { intros w'. destruct (unpaginated c) eqn:Hc.
      - rewrite (run_respond_unpaginated _ _ _ _ c w' Hc).
        destruct (handle env (object_GetMachines _) w') as [fetched w1].
        destruct (handle env _ w1) as [masked w2]. reflexivity.
      - rewrite (run_respond_paginated _ _ _ _ c w' Hc).
        destruct (ParseInt _); [|discriminate].
        destruct (handle env (object_GetMachineCount _ _ _) w') as [[n err] w1].
        cbn [snd fst]. destruct err; [discriminate|].
        destruct (handle env _ w1) as [fetched w2].
        destruct (handle env _ w2) as [masked w3]. reflexivity. }
    rewrite run_GetMachines.
    destruct (handle env (object_GetMachines _) w) as [[first err] w1].
    cbn [fst snd]. destruct err as [e|]; [discriminate|].
    assert (forall x,
              count is_store_read
                (Ev (object_GetMachines (Get "owner" (Input c))) x
                 :: classification env first) = 1) as Hpre.
    { intros x.
      change (Ev (object_GetMachines (Get "owner" (Input c))) x
              :: classification env first)
        with ([Ev (object_GetMachines (Get "owner" (Input c))) x] ++
              classification env first).
      rewrite count_app, count_classification_none; reflexivity. }
    destruct (anyNonDefault env first).
    + destruct (handle env (object_SyncMachinesCloud _) w1) as [[affected err] w2].
      cbn [fst snd]. destruct err as [e|]; [discriminate|].
      cbn [outcome trace prepend]. intros Hok.
      rewrite !count_app, Hpre, (Hrest w2 Hok).
      destruct (unpaginated c); reflexivity.
    + cbn [outcome trace prepend]. intros Hok.
      rewrite count_app, Hpre, (Hrest w1 Hok).
      destruct (unpaginated c); reflexivity.
  - rewrite run_GetMachine.
    destruct (handle env (object_GetMachine _) w) as [[machine err] w1].
    cbn [fst snd]. destruct err as [e|]; [discriminate|].
    destruct (IsDefault env machine).
    + destruct (handle env (object_GetMaskedMachine machine []) w1) as [masked w2].
      reflexivity.
    + destruct (handle env (object_SyncMachinesCloud _) w1) as [[affected err] w2].
      cbn [fst snd]. destruct err as [e|]; [discriminate|].
      destruct (handle env (object_GetMachine _) w2) as [refetched w3].
      destruct (handle env _ w3) as [masked w4]. reflexivity.
Qed.

End FurtherReads.

(** ** The further properties on alice's machines *)

(** Getting a machine that the store does not hold answers with the error of
    the fetch. *)
Lemma GetMachine_fetch_error_witness :
  snd (fst (handle demoEnv (object_GetMachine "alice/nope") aliceStore)) = Some "not found" /\
  outcome (run demoEnv (GetMachine demo_GetOwnerAndNameFromId get_missing) aliceStore) =
    Returned (ResponseError "not found") /\
  trace (run demoEnv (GetMachine demo_GetOwnerAndNameFromId get_missing) aliceStore) =
    [Ev (object_GetMachine "alice/nope") (None, Some "not found")].
Proof.
  split; [reflexivity|].
  destruct (GetMachine_fetch_error demo_GetOwnerAndNameFromId _ demoEnv get_missing
              aliceStore "not found" eq_refl) as (Hout & Htrace & _).
  split; [exact Hout|exact Htrace].
Defined.

(** With [db_1] listed after [web_1], the loop classifies [machine_1] and
    [web_1] and never reaches [db_1]. *)
Lemma GetMachines_classifies_prefix_witness :
  handle demoEnv (object_GetMachines "alice") aliceStore3 =
    (([Some machine_1; Some web_1; Some db_1], None), aliceStore3) /\
  filter is_classification
         (trace (run demoEnv (GetMachines demo_Offset demo_Nums alice_list) aliceStore3)) =
    [Ev (Machine_IsDefault (Some machine_1)) true;
     Ev (Machine_IsDefault (Some web_1)) false].
Proof.
  split; [reflexivity|].
  apply (proj1 (GetMachines_classifies_prefix demo_Offset demo_Nums _ demoEnv alice_list
                  aliceStore3 aliceStore3 _ eq_refl)
               [Some machine_1] (Some web_1) [Some db_1] eq_refl).
  - intros x [<-|[]]. reflexivity.
  - reflexivity.
Defined.

(** The data of alice's unpaginated list is what the last call, masking,
    returned. *)
Lemma responses_are_masked_witness :
  exists pre ev,
    trace (run demoEnv (GetMachines demo_Offset demo_Nums alice_list) aliceStore) =
      pre ++ [ev] /\
    masked_output ev = Some (VMachines [Some machine_1; Some web_1_masked]).
Proof.
  destruct (proj1 (responses_are_masked demo_Offset demo_Nums demo_GetOwnerAndNameFromId _
                     demoEnv alice_list aliceStore)
                  [VMachines [Some machine_1; Some web_1_masked]] eq_refl)
    as (pre & ev & machines & Htr & Hm & [[_ Hd]|[Hc _]]).
  - exists pre, ev. split; [exact Htr|]. rewrite Hm. injection Hd as <-. reflexivity.
  - discriminate Hc.
Defined.

(** With the count query failing, page 2 of alice's machines answers with
    that error. *)
Lemma count_error_aborts_witness :
  In (Ev (object_GetMachineCount "alice" "" "") (0%Z, Some "count failed"))
     (trace (run countDownEnv (GetMachines demo_Offset demo_Nums alice_page_2) aliceStore)) /\
  outcome (run countDownEnv (GetMachines demo_Offset demo_Nums alice_page_2) aliceStore) =
    Returned (ResponseError "count failed") /\
  count is_page_fetch
        (trace (run countDownEnv (GetMachines demo_Offset demo_Nums alice_page_2)
                    aliceStore)) = 0.
Proof.
  assert (In (Ev (object_GetMachineCount "alice" "" "") (0%Z, Some "count failed"))
             (trace (run countDownEnv (GetMachines demo_Offset demo_Nums alice_page_2)
                         aliceStore))) as Hin.
  { do 4 right. left. reflexivity. }
  split; [exact Hin|].
  destruct (count_error_aborts demo_Offset demo_Nums _ countDownEnv alice_page_2 aliceStore
              _ "count failed" Hin eq_refl eq_refl) as (Hout & _ & Hpage & _).
  split; [exact Hout|exact Hpage].
Defined.

(** Page 2 of alice's machines: the total of the response is the count the
    paginator was built with. *)
Lemma paginated_queries_agree_witness :
  unpaginated alice_page_2 = false /\
  exists k n masked,
    ParseInt (Get "pageSize" (Input alice_page_2)) = Some k /\
    [VMachines [Some web_1_masked]; VInt 2] =
      [VMachines masked; VInt (demo_Nums (SetPaginator (Ctx alice_page_2) k n))].
Proof.
  split; [reflexivity|].
  destruct (paginated_queries_agree demo_Offset demo_Nums _ demoEnv alice_page_2 aliceStore
              [VMachines [Some web_1_masked]; VInt 2] eq_refl eq_refl)
    as (k & n & fetched & masked & pre & Hk & _ & Hd).
  exists k, n, masked. split; [exact Hk|exact Hd].
Defined.

(** Getting [web_1] synchronises alice, the owner named by the id, and not
    bob. *)
Lemma GetMachine_syncs_owner_of_id_witness :
  handle demoEnv (object_GetMachine "alice/web_1") aliceStore =
    ((Some web_1, None), aliceStore) /\
  IsDefault demoEnv (Some web_1) = false /\
  count (is_sync_for "alice")
        (trace (run demoEnv (GetMachine demo_GetOwnerAndNameFromId get_web_1) aliceStore)) = 1 /\
  count (is_sync_for "bob")
        (trace (run demoEnv (GetMachine demo_GetOwnerAndNameFromId get_web_1) aliceStore)) = 0.
Proof.
  split; [reflexivity|]. split; [reflexivity|].
  destruct (GetMachine_syncs_owner_of_id demo_GetOwnerAndNameFromId _ demoEnv get_web_1
              aliceStore aliceStore (Some web_1) eq_refl eq_refl) as [Hone Hother].
  split; [exact Hone|]. apply Hother. discriminate.
Defined.

(** In alice's unpaginated list the masking call is given the list as
    fetched after the synchronisation, with [web_1] running. *)
Lemma sync_splits_run_witness :
  exists f m,
    masks_fetched f m /\
    f = Ev (object_GetMachines "alice") ([Some machine_1; Some web_1_synced], None) /\
    In m (trace (run demoEnv (GetMachines demo_Offset demo_Nums alice_list) aliceStore)).
Proof.
  destruct (proj1 (sync_splits_run demo_Offset demo_Nums demo_GetOwnerAndNameFromId _
                     demoEnv alice_list aliceStore)
                  [Ev (object_GetMachines "alice") ([Some machine_1; Some web_1], None);
                   Ev (Machine_IsDefault (Some machine_1)) true;
                   Ev (Machine_IsDefault (Some web_1)) false]
                  (Ev (object_SyncMachinesCloud "alice") (true, None))
                  [Ev (object_GetMachines "alice")
                      ([Some machine_1; Some web_1_synced], None);
                   Ev (object_GetMaskedMachines [Some machine_1; Some web_1_synced] [None])
                      ([Some machine_1; Some web_1_masked], None)]
                  eq_refl eq_refl) as (_ & _ & Hmask).
  destruct (Hmask [Ev (object_GetMachines "alice")
                      ([Some machine_1; Some web_1_synced], None)]
                  (Ev (object_GetMaskedMachines [Some machine_1; Some web_1_synced] [None])
                      ([Some machine_1; Some web_1_masked], None))
                  [] eq_refl eq_refl) as (a' & f & Ha & Hf).
  apply (app_inj_tail []) in Ha. destruct Ha as [_ <-].
  eexists _, _. split; [exact Hf|]. split; [reflexivity|].
  do 5 right. left. reflexivity.
Defined.
